(** * crival-boutique: the catalog application of [app.py]

    A shallow embedding of the request handlers of [app.py] and of the
    helpers they call, followed by the properties of the catalog that are
    proved about them.

    Modelling choices.
    - A product and a category are the JSON objects that the handlers write
      ([new_product], [new_category]).  The fields that the code reads
      defensively ([p.get('image')], [p.get('category_id')],
      ['views' in p]) are optional; [id] is read as [p['id']] everywhere and
      is mandatory.  Python integers are unbounded: [Z]; a Python float is
      an IEEE 754 binary64 value: [spec_float].
    - A JSON file of the data directory is [Missing], [Undecodable]
      ([json.load] raises [JSONDecodeError]), [Unreadable] (its bytes are
      not UTF-8 text: reading it raises [UnicodeDecodeError]) or [Decoded]
      into the collection that [json.load] returns; [json.dump] followed by
      [json.load] is the identity on collections.
    - The other files (the uploaded images) are a finite map from paths to
      bytes.  A path whose last component is empty, [.] or [..] names a
      directory, and a last component of more than 255 bytes is refused by
      the file system: removing or writing such a path raises.
    - Handlers run in a state-and-exception monad: an exception that no
      [try] of the handler catches ends the request, and the state reached
      at that point is kept, as on disk.
    - The functions of werkzeug, flask and Pillow that the code calls are
      section variables. *)

From Stdlib Require Import ZArith SpecFloat Ascii String.
From stdpp Require Import gmap strings list fin_maps pretty sorting.

Set Default Proof Using "Type".

(** ** Strings and paths *)

Definition bytes := list Byte.byte.

Definition ascii_lower (c : ascii) : ascii :=
  let n := nat_of_ascii c in
  if (65 <=? n)%nat && (n <=? 90)%nat then ascii_of_nat (n + 32) else c.

(** [str.lower] on the ASCII letters. *)
Fixpoint lower (s : string) : string :=
  match s with
  | EmptyString => EmptyString
  | String c r => String (ascii_lower c) (lower r)
  end.

(** [s.rfind(c)] where [s] starts at index [i] of the whole string: the
    highest index of [c], or [-1]. *)
Fixpoint rfind_from (c : ascii) (s : string) (i : Z) : Z :=
  match s with
  | EmptyString => (-1)%Z
  | String a r =>
      let j := rfind_from c r (i + 1) in
      if (0 <=? j)%Z then j else if Ascii.eqb a c then i else (-1)%Z
  end.

Definition rfind (c : ascii) (s : string) : Z := rfind_from c s 0.

(** The slices [s[i:]] and [s[:i]] for [0 <= i]. *)
Fixpoint slice_from (i : nat) (s : string) : string :=
  match i, s with
  | O, _ => s
  | S _, EmptyString => EmptyString
  | S i', String _ r => slice_from i' r
  end.

Fixpoint slice_to (i : nat) (s : string) : string :=
  match i, s with
  | O, _ => EmptyString
  | S _, EmptyString => EmptyString
  | S i', String a r => String a (slice_to i' r)
  end.

(** [posixpath.basename]: [i = p.rfind('/') + 1; return p[i:]]. *)
Definition os_path_basename (p : string) : string :=
  slice_from (Z.to_nat (rfind "/" p + 1)) p.

(** The loop of [genericpath._splitext] that skips the leading dots of the
    file name: [true] when a character other than a dot occurs at an index
    in [filenameIndex, filenameIndex + n). *)
Fixpoint has_non_dot (p : string) (filenameIndex n : nat) : bool :=
  match n with
  | O => false
  | S n' =>
      match String.get filenameIndex p with
      | Some c => if Ascii.eqb c "." then has_non_dot p (S filenameIndex) n' else true
      | None => true
      end
  end.

(** [posixpath.splitext]. *)
Definition os_path_splitext (p : string) : string * string :=
  let sepIndex := rfind "/" p in
  let dotIndex := rfind "." p in
  if (sepIndex <? dotIndex)%Z
     && has_non_dot p (Z.to_nat (sepIndex + 1)) (Z.to_nat (dotIndex - (sepIndex + 1)))
  then (slice_to (Z.to_nat dotIndex) p, slice_from (Z.to_nat dotIndex) p)
  else (p, EmptyString).

(** [posixpath.join] of two components. *)
Definition ends_with_sep (p : string) : bool :=
  match String.get (String.length p - 1) p with
  | Some c => Ascii.eqb c "/"
  | None => false
  end.

Definition os_path_join (a b : string) : string :=
  match b with
  | String "/" _ => b
  | _ => if bool_decide (a = "") || ends_with_sep a then a +:+ b else a +:+ "/" +:+ b
  end.

(** ** The data model *)

Module Product.
Record t := Build {
  id : Z;
  name : string;
  description : string;
  price : spec_float;
  image : option string;
  category_id : option Z;
  views : option Z
}.

(** The assignments [product[key] = value] of the handlers. *)
Definition set_name (v : string) (p : t) : t :=
  Build (id p) v (description p) (price p) (image p) (category_id p) (views p).
Definition set_description (v : string) (p : t) : t :=
  Build (id p) (name p) v (price p) (image p) (category_id p) (views p).
Definition set_price (v : spec_float) (p : t) : t :=
  Build (id p) (name p) (description p) v (image p) (category_id p) (views p).
Definition set_category_id (v : Z) (p : t) : t :=
  Build (id p) (name p) (description p) (price p) (image p) (Some v) (views p).
Definition set_image (v : string) (p : t) : t :=
  Build (id p) (name p) (description p) (price p) (Some v) (category_id p) (views p).
Definition set_views (v : Z) (p : t) : t :=
  Build (id p) (name p) (description p) (price p) (image p) (category_id p) (Some v).
End Product.

Module Category.
Record t := Build {
  id : Z;
  name : string;
  image : option string
}.

Definition set_name (v : string) (c : t) : t := Build (id c) v (image c).
Definition set_image (v : string) (c : t) : t := Build (id c) (name c) (Some v).
End Category.

(** Truth value of [d.get('image')]: a present, non-empty string. *)
Definition truthy (v : option string) : bool :=
  match v with
  | Some s => negb (bool_decide (s = ""))
  | None => false
  end.

(** ** The world of a request *)

Inductive json_file (A : Type) : Type :=
| Missing
| Undecodable
| Unreadable
| Decoded (data : A).
Arguments Missing {A}.
Arguments Undecodable {A}.
Arguments Unreadable {A}.
Arguments Decoded {A} data.

Record state := State {
  products_file : json_file (list Product.t);
  categories_file : json_file (list Category.t);
  fs : gmap string bytes;
  is_authenticated : bool;
  flashes : list (string * string)
}.

Definition set_products_file (f : json_file (list Product.t)) (s : state) : state :=
  State f (categories_file s) (fs s) (is_authenticated s) (flashes s).

Definition set_categories_file (f : json_file (list Category.t)) (s : state) : state :=
  State (products_file s) f (fs s) (is_authenticated s) (flashes s).

Definition set_fs (m : gmap string bytes) (s : state) : state :=
  State (products_file s) (categories_file s) m (is_authenticated s) (flashes s).

Definition add_flash (msg : string * string) (s : state) : state :=
  State (products_file s) (categories_file s) (fs s) (is_authenticated s)
        (flashes s ++ [msg]).

(** The exceptions that the handlers can meet.  [OSError] is the error of
    a file name that is too long, [ImageError] stands for any exception of
    Pillow's decoders and encoders. *)
Inductive exn :=
| FileNotFoundError
| IsADirectoryError
| OSError
| IndexError
| JSONDecodeError
| UnicodeDecodeError
| ValueError
| BadRequestKeyError
| ImageError.

Inductive outcome (A : Type) : Type :=
| Ok (a : A) (s : state)
| Raised (e : exn) (s : state).
Arguments Ok {A} a s.
Arguments Raised {A} e s.

Definition M (A : Type) : Type := state -> outcome A.

Definition ret {A} (a : A) : M A := fun s => Ok a s.

Definition bind {A B} (m : M A) (k : A -> M B) : M B :=
  fun s => match m s with
           | Ok a s' => k a s'
           | Raised e s' => Raised e s'
           end.

Definition raise {A} (e : exn) : M A := fun s => Raised e s.

(** [try: body except <caught>: handler]. *)
Definition try_except {A} (body : M A) (caught : exn -> bool) (handler : M A) : M A :=
  fun s => match body s with
           | Ok a s' => Ok a s'
           | Raised e s' => if caught e then handler s' else Raised e s'
           end.

Definition of_option {A} (e : exn) (o : option A) : M A :=
  match o with
  | Some a => ret a
  | None => raise e
  end.

Notation "'let*' x ':=' m 'in' k" := (bind m (fun x => k))
  (at level 10, x binder, m at level 100, k at level 200).
Notation "m ';;' k" := (bind m (fun _ => k))
  (at level 100, k at level 200, right associativity).

Definition flash (message category : string) : M unit :=
  fun s => Ok tt (add_flash (message, category) s).

(** The final state of a run, whether it returned or raised. *)
Definition final_state {A} (o : outcome A) : state :=
  match o with
  | Ok _ s => s
  | Raised _ s => s
  end.

(** ** The JSON repository *)

(** [with open(file, 'r', encoding='utf-8') as f: json.load(f)]. *)
Definition json_load {A} (f : json_file A) : M A :=
  match f with
  | Missing => raise FileNotFoundError
  | Undecodable => raise JSONDecodeError
  | Unreadable => raise UnicodeDecodeError
  | Decoded data => ret data
  end.

(** [except (FileNotFoundError, json.JSONDecodeError)]. *)

Definition missing_or_corrupt (e : exn) : bool :=
  match e with
  | FileNotFoundError | JSONDecodeError => true
  | _ => false
  end.

Definition save_products (products : list Product.t) : M unit :=
  fun s => Ok tt (set_products_file (Decoded products) s).

Definition load_products : M (list Product.t) :=
  try_except
    (fun s => json_load (products_file s) s)
    missing_or_corrupt
    (save_products [] ;; ret []).

Definition save_categories (categories : list Category.t) : M unit :=
  fun s => Ok tt (set_categories_file (Decoded categories) s).

Definition load_categories : M (list Category.t) :=
  try_except
    (fun s => json_load (categories_file s) s)
    missing_or_corrupt
    (save_categories [] ;; ret []).

(** The collection that a load returns in a state, when it returns. *)
Definition collection {A} (f : json_file (list A)) : list A :=
  match f with
  | Decoded data => data
  | _ => []
  end.

Definition products_of (s : state) : list Product.t := collection (products_file s).
Definition categories_of (s : state) : list Category.t := collection (categories_file s).

(** ** Files of the upload folder *)

(** A path whose last component is empty, [.] or [..] names a directory
    (the empty path names nothing). *)
Definition names_directory (path : string) : bool :=
  let name := os_path_basename path in
  negb (bool_decide (path = ""))
  && (bool_decide (name = "") || bool_decide (name = ".") || bool_decide (name = "..")).

(** The longest file name, in bytes, that the file system accepts. *)
Definition NAME_MAX : nat := 255.

(** The error that the file system opposes to the path itself, whatever
    the files are. *)
Definition path_error (path : string) : option exn :=
  if names_directory path then Some IsADirectoryError
  else if (NAME_MAX <? String.length (os_path_basename path))%nat then Some OSError
  else None.

(** The error of opening [path] for writing. *)
Definition write_error (path : string) : option exn :=
  if bool_decide (path = "") then Some FileNotFoundError else path_error path.

(** Writing [data] to [path], as [file_storage.save(path)] does. *)
Definition write_file (path : string) (data : bytes) : M unit :=
  fun s => match write_error path with
           | Some e => Raised e s
           | None => Ok tt (set_fs (<[path := data]> (fs s)) s)
           end.

(** [os.remove(path)]. *)
Definition os_remove (path : string) : M unit :=
  fun s => match path_error path with
           | Some e => Raised e s
           | None =>
               match fs s !! path with
               | Some _ => Ok tt (set_fs (delete path (fs s)) s)
               | None => Raised FileNotFoundError s
               end
           end.

(** [except (FileNotFoundError, IndexError)]. *)
Definition not_found_or_index (e : exn) : bool :=
  match e with
  | FileNotFoundError | IndexError => true
  | _ => false
  end.

(** ** Builtins *)

(** [max(l)] on integers; [None] is the [ValueError] on the empty list. *)
Definition py_max (l : list Z) : option Z :=
  match l with
  | [] => None
  | x :: r => Some (foldl Z.max x r)
  end.

(** [sorted(l, key=key, reverse=True)]: the stable sort into non-increasing
    keys, elements of equal key staying in their order in [l]. *)
Fixpoint insert_reverse {A} (key : A -> Z) (x : A) (l : list A) : list A :=
  match l with
  | [] => [x]
  | y :: l' => if (key x <? key y)%Z then y :: insert_reverse key x l' else x :: l
  end.

Definition sorted_reverse {A} (key : A -> Z) (l : list A) : list A :=
  foldr (insert_reverse key) [] l.

(** ** Requests and responses *)

Record FileStorage := {
  filename : string;
  stream : bytes
}.

Inductive http_method := GET | POST.

(** [now] is the value of [int(time.time())] during the request. *)
Record request := {
  method : http_method;
  url : string;
  form : gmap string string;
  files : gmap string FileStorage;
  now : Z
}.

(** The responses: a redirect, a rendered template with the values passed
    to it ([products_json], the JSON text of [products], is left out), or a
    JSON body with its status. *)
Inductive response :=
| Redirect (target : string)
| render_index (products : list Product.t) (categories : list Category.t)
               (featured_products : list Product.t)
| render_admin (products : list Product.t) (categories : list Category.t)
| render_edit_product (product : Product.t) (categories : list Category.t)
| render_categories (categories : list Category.t)
| render_edit_category (category : Category.t)
| jsonify (success : bool) (error : option string) (status : Z).

(** The shape of [ADMIN_USER]. *)
Record credentials := {
  username : string;
  password : string
}.

(** [request.form[key]]: a missing key is a 400 error. *)
Definition form_get (request : request) (key : string) : M string :=
  of_option BadRequestKeyError (form request !! key).

(** The uploaded file of the form, when there is one with a file name:
    ['image' in request.files and request.files['image'].filename != '']. *)
Definition uploaded_image (request : request) : option FileStorage :=
  match files request !! "image" with
  | Some file => if bool_decide (filename file = "") then None else Some file
  | None => None
  end.

(** [@login_required]: an anonymous request is sent to the login view. *)
Definition login_required (view : M response) : M response :=
  fun s => if is_authenticated s then view s
           else (flash "Please log in to access this page." "message" ;;
                 ret (Redirect "login")) s.

Definition conversion_warning : string :=
  "El formato de la imagen no es compatible para la conversión a WebP. Se ha guardado la imagen original.".

Definition supported_formats_for_conversion : list string :=
  [".png"; ".jpg"; ".jpeg"; ".bmp"; ".gif"; ".tiff"].

(** ** A small instance

    Stand-ins for the library functions and a small catalog, on which the
    handlers can be run. *)

Module Fixture.

Definition DATA_DIR : string := "instance".

(** The names of the examples are already safe. *)
Definition secure_filename (name : string) : string := name.

Definition url_for_uploaded_file (name : string) : string := "/uploads/" +:+ name.

(** The binary64 value 9.5. *)
Definition nine_and_a_half : spec_float := S754_finite false 5348024557502464 (-49).

Definition py_float (field : string) : option spec_float :=
  if bool_decide (field = "9.5") then Some nine_and_a_half else None.

Definition py_int (field : string) : option Z :=
  if bool_decide (field = "1") then Some 1%Z
  else if bool_decide (field = "7") then Some 7%Z
  else None.

(** A three-byte image format: a mode byte ([x01] for a palette), a width
    and a height. *)
Record Image := {
  palette : bool;
  width : Byte.byte;
  height : Byte.byte
}.

Definition Image_open (data : bytes) : option Image :=
  match data with
  | [m; w; h] => Some {| palette := Byte.eqb m Byte.x01; width := w; height := h |}
  | _ => None
  end.

Definition Image_mode (image : Image) : string :=
  if palette image then "P" else "RGB".

Definition Image_size (image : Image) : Z * Z :=
  (Z.of_N (Byte.to_N (width image)), Z.of_N (Byte.to_N (height image))).

Definition Image_convert (image : Image) (mode : string) : option Image :=
  Some {| palette := false; width := width image; height := height image |}.

(** An image without columns cannot be encoded. *)
Definition Image_save (image : Image) (format : string) (params : list (string * Z))
  : option bytes :=
  if Byte.eqb (width image) Byte.x00 then None
  else Some [Byte.x00; width image; height image].

(** The encoder fails before it has written a byte. *)
Definition Image_save_leftover (image : Image) (format : string)
           (params : list (string * Z)) : option bytes :=
  Some [].

Definition rings : Category.t :=
  Category.Build 1 "Anillos" (Some "/uploads/category_1.webp").
Definition necklaces : Category.t :=
  Category.Build 2 "Collares" (Some "/uploads/category_2.webp").

Definition ring : Product.t :=
  Product.Build 1 "Anillo" "Plata" nine_and_a_half (Some "/uploads/product_1.webp")
                (Some 1%Z) (Some 3%Z).
Definition necklace : Product.t :=
  Product.Build 2 "Collar" "Oro" nine_and_a_half (Some "/uploads/product_2.jpg")
                (Some 2%Z) None.

(** The image of [ring] is missing from the upload folder. *)
Definition disk : gmap string bytes :=
  <["instance/uploads/category_1.webp" := [Byte.x00; Byte.x02; Byte.x02]]>
    (<["instance/uploads/product_2.jpg" := [Byte.x00; Byte.x03; Byte.x03]]> ∅).

Definition shop : state :=
  State (Decoded [ring; necklace]) (Decoded [rings; necklaces]) disk true [].

Definition photo : FileStorage :=
  {| filename := "ring.PNG"; stream := [Byte.x01; Byte.x04; Byte.x05] |}.


(** An upload that decodes and cannot be encoded, and one whose extension
    makes the stored name longer than a file name may be. *)
Definition blank_photo : FileStorage :=
  {| filename := "ring.png"; stream := [Byte.x00; Byte.x00; Byte.x05] |}.

Definition long_photo : FileStorage :=
  {| filename := "ring." +:+ string_of_list_ascii (repeat "x"%char 260);
     stream := [Byte.x00; Byte.x04; Byte.x05] |}.

(** The catalog with a products file that is not UTF-8 text. *)
Definition garbled : state :=
  State Unreadable (Decoded [rings; necklaces]) disk true [].

(** The catalog with a product whose image names the upload folder. *)
Definition stray : Product.t :=
  Product.Build 1 "Anillo" "Plata" nine_and_a_half (Some "/uploads/")
                (Some 1%Z) (Some 3%Z).

Definition tampered : state :=
  State (Decoded [stray; necklace]) (Decoded [rings; necklaces]) disk true [].

Definition ADMIN_USER : credentials :=
  {| username := "admin"; password := "secret" |}.

(** A login form. *)
Definition sign_in (user pass : string) : request :=
  {| method := POST;
     url := "/login";
     form := <["username" := user]> (<["password" := pass]> ∅);
     files := ∅;
     now := 1700000000 |}.

(** The catalog as an anonymous visitor sees it. *)
Definition visitor : state :=
  State (Decoded [ring; necklace]) (Decoded [rings; necklaces]) disk false [].

(** A creation form without an image part, and one whose price does not
    parse. *)
Definition submission_without_image : request :=
  {| method := POST;
     url := "/admin";
     form := <["name" := "Anillo"]> ∅;
     files := ∅;
     now := 1700000000 |}.

Definition submission_with_bad_price : request :=
  {| method := POST;
     url := "/admin";
     form := <["name" := "Anillo"]>
               (<["description" := "Plata"]>
                  (<["price" := "nueve"]>
                     (<["category_id" := "1"]> ∅)));
     files := <["image" := photo]> ∅;
     now := 1700000000 |}.

(** A form that names the category [category_field]. *)
Definition submission (category_field : string) : request :=
  {| method := POST;
     url := "/admin";
     form := <["name" := "Anillo"]>
               (<["description" := "Plata"]>
                  (<["price" := "9.5"]>
                     (<["category_id" := category_field]> ∅)));
     files := <["image" := photo]> ∅;
     now := 1700000000 |}.

End Fixture.

(** ** The application *)

Section App.

(** [os.environ.get('RENDER_DISK_PATH', 'instance')]. *)
Variable DATA_DIR : string.

(** werkzeug's [secure_filename] and flask's
    [url_for('uploaded_file', filename=...)]. *)
Variable secure_filename : string -> string.
Variable url_for_uploaded_file : string -> string.

(** [float(s)] and [int(s)] on a form field; [None] is [ValueError]. *)
Variable py_float : string -> option spec_float.
Variable py_int : string -> option Z.

(** Pillow: [Image.open], [image.mode], [image.size], [image.convert] and
    the bytes that [image.save(path, format, **params)] writes to [path];
    [None] is an exception of the library.  When the save raises,
    [Image_save_leftover] is [None] if it raised before it opened the file
    (the image data do not decode), and otherwise the bytes that it had
    written when the encoder raised. *)
Variable Image : Type.
Variable Image_open : bytes -> option Image.
Variable Image_mode : Image -> string.
Variable Image_size : Image -> Z * Z.
Variable Image_convert : Image -> string -> option Image.
Variable Image_save : Image -> string -> list (string * Z) -> option bytes.
Variable Image_save_leftover : Image -> string -> list (string * Z) -> option bytes.

Definition UPLOAD_FOLDER : string := os_path_join DATA_DIR "uploads".

(** [image.save(path, format, **params)].  Pillow opens [path] for
    writing, which truncates a file that is there, and then encodes; when
    the encoder raises it removes the file if the save created it, and
    leaves it with what was written if it was there before. *)
Definition image_save (image : Image) (path format : string) (params : list (string * Z))
  : M unit :=
  match Image_save image format params with
  | Some data => write_file path data
  | None =>
      match Image_save_leftover image format params with
      | None => raise ImageError
      | Some written =>
          fun s =>
            match write_error path with
            | Some e => Raised e s
            | None =>
                Raised ImageError
                       (match fs s !! path with
                        | Some _ => set_fs (<[path := written]> (fs s)) s
                        | None => s
                        end)
            end
      end
  end.

(** The body of the [try] of [save_image], up to its [return]. *)
Definition convert_to_webp (file_storage : FileStorage) (webp_filepath : string)
  : M unit :=
  let* image := of_option ImageError (Image_open (stream file_storage)) in
  let* image :=
    if bool_decide (Image_mode image ∈ ["P"; "PA"])
    then of_option ImageError (Image_convert image "RGBA")
    else ret image in
  image_save image webp_filepath "webp" [("quality", 85%Z)].

(** [output_folder] exists.  The stream of the upload is its bytes, which
    [seek(0)] makes [save] write in full. *)
Definition save_image (file_storage : FileStorage) (output_folder basename : string)
  : M (string * bool) :=
  let original_filename := secure_filename (filename file_storage) in
  let original_extension := lower (snd (os_path_splitext original_filename)) in
  let fallback : M (string * bool) :=
    let final_filename := basename +:+ original_extension in
    let final_filepath := os_path_join output_folder final_filename in
    write_file final_filepath (stream file_storage) ;;
    ret (final_filename, false) in
  if bool_decide (original_extension ∈ supported_formats_for_conversion) then
    let webp_filename := basename +:+ ".webp" in
    let webp_filepath := os_path_join output_folder webp_filename in
    let* converted :=
      try_except
        (convert_to_webp file_storage webp_filepath ;; ret true)
        (fun _ => true)
        (ret false) in
    if converted : bool then ret (webp_filename, true) else fallback
  else fallback.

(** The clean-up of a stored image, as every handler writes it:
    [if d.get('image'): try: os.remove(...) except (FileNotFoundError,
    IndexError): pass]. *)
Definition remove_image (image : option string) : M unit :=
  match image with
  | Some url =>
      if truthy image then
        try_except
          (os_remove (os_path_join UPLOAD_FOLDER (secure_filename (os_path_basename url))))
          not_found_or_index
          (ret tt)
      else ret tt
  | None => ret tt
  end.

Definition index : M response :=
  let* products := load_products in
  let* categories := load_categories in
  let featured_products :=
    take 4 (sorted_reverse (fun x => default 0%Z (Product.views x))
              (filter (fun p => is_Some (Product.views p)) products)) in
  ret (render_index products categories featured_products).

(** [max([x['id'] for x in l]) + 1 if l else 1]. *)
Definition next_id (ids : list Z) : M Z :=
  match ids with
  | [] => ret 1%Z
  | _ => let* m := of_option ValueError (py_max ids) in ret (m + 1)%Z
  end.

Definition admin (request : request) : M response :=
  login_required
    match method request with
    | POST =>
        let* products := load_products in
        let* new_id := next_id (Product.id <$> products) in
        match uploaded_image request with
        | None =>
            flash "La imagen es obligatoria." "message" ;;
            ret (Redirect (url request))
        | Some file =>
            let basename := "product_" +:+ pretty new_id in
            let* saved := save_image file UPLOAD_FOLDER basename in
            (if snd saved then ret tt else flash conversion_warning "warning") ;;
            let image_url := url_for_uploaded_file (fst saved) in
            let* name := form_get request "name" in
            let* description := form_get request "description" in
            let* price_field := form_get request "price" in
            let* price := of_option ValueError (py_float price_field) in
            let* category_field := form_get request "category_id" in
            let* category_id := of_option ValueError (py_int category_field) in
            let new_product :=
              Product.Build new_id name description price (Some image_url)
                            (Some category_id) (Some 0%Z) in
            save_products (products ++ [new_product]) ;;
            flash "Producto agregado exitosamente!" "message" ;;
            ret (Redirect "admin")
        end
    | GET =>
        let* products := load_products in
        let* categories := load_categories in
        ret (render_admin products categories)
    end.

Definition edit_product (request : request) (product_id : Z) : M response :=
  login_required
    (let* products := load_products in
     match list_find (fun p => Product.id p = product_id) products with
     | None =>
         flash "Producto no encontrado." "message" ;;
         ret (Redirect "admin")
     | Some (i, product_to_edit) =>
         match method request with
         | POST =>
             let* name := form_get request "name" in
             let product_to_edit := Product.set_name name product_to_edit in
             let* description := form_get request "description" in
             let product_to_edit := Product.set_description description product_to_edit in
             let* price_field := form_get request "price" in
             let* price := of_option ValueError (py_float price_field) in
             let product_to_edit := Product.set_price price product_to_edit in
             let* category_field := form_get request "category_id" in
             let* category_id := of_option ValueError (py_int category_field) in
             let product_to_edit := Product.set_category_id category_id product_to_edit in
             let* product_to_edit :=
               match uploaded_image request with
               | Some file =>
                   remove_image (Product.image product_to_edit) ;;
                   let basename :=
                     "product_" +:+ pretty product_id +:+ "_" +:+ pretty (now request) in
                   let* saved := save_image file UPLOAD_FOLDER basename in
                   (if snd saved then ret tt else flash conversion_warning "warning") ;;
                   ret (Product.set_image (url_for_uploaded_file (fst saved)) product_to_edit)
               | None => ret product_to_edit
               end in
             save_products (<[i := product_to_edit]> products) ;;
             flash "Producto actualizado exitosamente!" "message" ;;
             ret (Redirect "admin")
         | GET =>
             let* categories := load_categories in
             ret (render_edit_product product_to_edit categories)
         end
     end).

Definition delete_product (product_id : Z) : M response :=
  login_required
    (let* products := load_products in
     let product_to_delete := list_find (fun p => Product.id p = product_id) products in
     match product_to_delete with
     | Some (_, p) => remove_image (Product.image p)
     | None => ret tt
     end ;;
     let products := filter (fun p => Product.id p ≠ product_id) products in
     save_products products ;;
     flash "Producto eliminado exitosamente!" "message" ;;
     ret (Redirect "admin")).

Definition manage_categories (request : request) : M response :=
  login_required
    match method request with
    | POST =>
        let* categories := load_categories in
        let* new_id := next_id (Category.id <$> categories) in
        match uploaded_image request with
        | None =>
            flash "La imagen de la categoría es obligatoria." "message" ;;
            ret (Redirect (url request))
        | Some file =>
            let basename := "category_" +:+ pretty new_id in
            let* saved := save_image file UPLOAD_FOLDER basename in
            (if snd saved then ret tt else flash conversion_warning "warning") ;;
            let image_url := url_for_uploaded_file (fst saved) in
            let* name := form_get request "name" in
            let new_category := Category.Build new_id name (Some image_url) in
            save_categories (categories ++ [new_category]) ;;
            flash "Categoría agregada exitosamente!" "message" ;;
            ret (Redirect "manage_categories")
        end
    | GET =>
        let* categories := load_categories in
        ret (render_categories categories)
    end.

Definition edit_category (request : request) (category_id : Z) : M response :=
  login_required
    (let* categories := load_categories in
     match list_find (fun c => Category.id c = category_id) categories with
     | None =>
         flash "Categoría no encontrada." "message" ;;
         ret (Redirect "manage_categories")
     | Some (i, category_to_edit) =>
         match method request with
         | POST =>
             let* name := form_get request "name" in
             let category_to_edit := Category.set_name name category_to_edit in
             let* category_to_edit :=
               match uploaded_image request with
               | Some file =>
                   remove_image (Category.image category_to_edit) ;;
                   let basename :=
                     "category_" +:+ pretty category_id +:+ "_" +:+ pretty (now request) in
                   let* saved := save_image file UPLOAD_FOLDER basename in
                   (if snd saved then ret tt else flash conversion_warning "warning") ;;
                   ret (Category.set_image (url_for_uploaded_file (fst saved)) category_to_edit)
               | None => ret category_to_edit
               end in
             save_categories (<[i := category_to_edit]> categories) ;;
             flash "Categoría actualizada exitosamente!" "message" ;;
             ret (Redirect "manage_categories")
         | GET => ret (render_edit_category category_to_edit)
         end
     end).

(** The [for p in products] loop of [delete_category]. *)
Fixpoint delete_category_loop (category_id : Z) (products : list Product.t)
         (products_to_keep : list Product.t) (products_deleted_count : Z)
  : M (list Product.t * Z) :=
  match products with
  | [] => ret (products_to_keep, products_deleted_count)
  | p :: rest =>
      if bool_decide (Product.category_id p = Some category_id) then
        remove_image (Product.image p) ;;
        delete_category_loop category_id rest products_to_keep
                             (products_deleted_count + 1)
      else
        delete_category_loop category_id rest (products_to_keep ++ [p])
                             products_deleted_count
  end.

Definition delete_category (category_id : Z) : M response :=
  login_required
    (let* categories := load_categories in
     let* products := load_products in
     let category_to_delete :=
       list_find (fun c => Category.id c = category_id) categories in
     match category_to_delete with
     | Some (_, c) =>
         remove_image (Category.image c) ;;
         let categories := filter (fun c => Category.id c ≠ category_id) categories in
         save_categories categories ;;
         let* looped := delete_category_loop category_id products [] 0 in
         (if (0 <? snd looped)%Z then save_products (fst looped) else ret tt) ;;
         flash ("Categoría y " +:+ pretty (snd looped)
                +:+ " producto(s) asociado(s) eliminados exitosamente!") "message" ;;
         ret (Redirect "manage_categories")
     | None =>
         flash "Categoría no encontrada." "warning" ;;
         ret (Redirect "manage_categories")
     end).

Definition record_view (product_id : Z) : M response :=
  let* products := load_products in
  match list_find (fun p => Product.id p = product_id) products with
  | Some (i, product) =>
      let product :=
        if bool_decide (Product.views product = None)
        then Product.set_views 0 product else product in
      let product := Product.set_views (default 0%Z (Product.views product) + 1) product in
      save_products (<[i := product]> products) ;;
      ret (jsonify true None 200)
  | None => ret (jsonify false (Some "Product not found") 404)
  end.

(** ** Sessions and the public pages *)

(** [ADMIN_USER], from the environment. *)
Variable ADMIN_USER : credentials.

(** [User(id)], by its id. *)
Definition load_user (user_id : string) : option string :=
  if bool_decide (user_id = username ADMIN_USER)
  then Some (username ADMIN_USER) else None.

(** [login_user(user)] stores the id of the user in the session, and the
    requests that follow are authenticated when [load_user] knows that id;
    [logout_user()] clears the session. *)
Definition login_user (user : string) : M unit :=
  fun s => Ok tt (State (products_file s) (categories_file s) (fs s)
                        (bool_decide (is_Some (load_user user))) (flashes s)).

Definition logout_user : M unit :=
  fun s => Ok tt (State (products_file s) (categories_file s) (fs s) false (flashes s)).

(** The pages of the handlers below: a response as above, or one of their
    two templates. *)
Inductive page :=
| Response (r : response)
| render_login
| render_category_products (products : list Product.t) (category : option Category.t)
                           (categories : list Category.t).

Definition login (request : request) : M page :=
  fun s =>
    if is_authenticated s then Ok (Response (Redirect "admin")) s
    else
      match method request with
      | POST =>
          (let* username_field := form_get request "username" in
           let* password_field := form_get request "password" in
           if bool_decide (username_field = username ADMIN_USER)
              && bool_decide (password_field = password ADMIN_USER)
           then
             login_user username_field ;;
             ret (Response (Redirect "admin"))
           else
             flash "Invalid username or password" "message" ;;
             ret render_login) s
      | GET => Ok render_login s
      end.

Definition logout : M response :=
  login_required (logout_user ;; ret (Redirect "index")).

Definition show_category (category_id : Z) : M page :=
  let* all_products := load_products in
  let* all_categories := load_categories in
  let category :=
    snd <$> list_find (fun c => Category.id c = category_id) all_categories in
  let products_in_category :=
    filter (fun p => Product.category_id p = Some category_id) all_products in
  ret (render_category_products products_in_category category all_categories).

(** ** Vocabulary of the properties *)

(** The state after a load: a missing or corrupt file has been rewritten
    as the empty collection. *)
Definition reset_products (s : state) : state :=
  match products_file s with
  | Missing | Undecodable => set_products_file (Decoded []) s
  | _ => s
  end.

Definition reset_categories (s : state) : state :=
  match categories_file s with
  | Missing | Undecodable => set_categories_file (Decoded []) s
  | _ => s
  end.

(** The path of the file that the clean-up of an image removes. *)
Definition image_path (url : string) : string :=
  os_path_join UPLOAD_FOLDER (secure_filename (os_path_basename url)).

(** The paths that the clean-up of an image field removes: none for an
    absent or empty field. *)
Definition image_paths (image : option string) : list string :=
  match image with
  | Some url => if truthy image then [image_path url] else []
  | None => []
  end.

(** The file map after the files at [paths] have been removed, the missing
    ones being skipped. *)
Definition unlink_all (paths : list string) (m : gmap string bytes)
  : gmap string bytes :=
  foldl (fun m path => delete path m) m paths.

(** The image files of the products of a category. *)
Definition cascade_paths (category_id : Z) (products : list Product.t)
  : list string :=
  concat ((fun p => image_paths (Product.image p))
            <$> filter (fun p => Product.category_id p = Some category_id) products).

(** [original_extension] of [save_image]. *)
Definition original_extension (file_storage : FileStorage) : string :=
  lower (snd (os_path_splitext (secure_filename (filename file_storage)))).

(** The state in which [data] has been written to [path]. *)
Definition stored (path : string) (data : bytes) (s : state) : state :=
  set_fs (<[path := data]> (fs s)) s.

(** [n] is the id after the ids [ids]: 1 when there are none, otherwise
    one more than the greatest of them. *)
Definition is_next_id (ids : list Z) (n : Z) : Prop :=
  (ids = [] /\ n = 1%Z)
  \/ (exists m, m ∈ ids /\ Forall (fun x => (x <= m)%Z) ids /\ n = (m + 1)%Z).

(** The two collections of a state. *)
Definition catalog (s : state) : list Product.t * list Category.t :=
  (products_of s, categories_of s).

(** Referential consistency: every product has a [category_id], which is
    the id of a category. *)
Definition references_hold (c : list Product.t * list Category.t) : Prop :=
  Forall (fun p => exists k, Product.category_id p = Some k
                             /\ k ∈ Category.id <$> c.2) c.1.

(** The category that a product form submits, when it parses. *)
Definition submitted_category (request : request) : option Z :=
  match form request !! "category_id" with
  | Some field => py_int field
  | None => None
  end.

(** The paths that the clean-up of the first match of a search removes. *)
Definition found_image_paths {A} (image : A -> option string)
           (found : option (nat * A)) : list string :=
  match found with
  | Some (_, x) => image_paths (image x)
  | None => []
  end.

(** The product that the form of [edit_product] makes of [p], before any
    new image. *)
Definition edited_product (name description : string) (price : spec_float)
           (category_id : Z) (p : Product.t) : Product.t :=
  Product.set_category_id category_id
    (Product.set_price price
       (Product.set_description description (Product.set_name name p))).

(** The sort key of the featured products: [x.get('views', 0)]. *)
Definition views_key (p : Product.t) : Z := default 0%Z (Product.views p).

(** [p] comes no later than [q] in a list of non-increasing views. *)
Definition views_ge (p q : Product.t) : Prop := (views_key q <= views_key p)%Z.

(** The ids of the two collections. *)
Definition product_ids (s : state) : list Z := Product.id <$> products_of s.
Definition category_ids (s : state) : list Z := Category.id <$> categories_of s.

(** The state after [n] views of a product in a row. *)
Fixpoint viewed (n : nat) (product_id : Z) (s : state) : state :=
  match n with
  | O => s
  | S n' => final_state (record_view product_id (viewed n' product_id s))
  end.

(** The id that [next_id] computes. *)
Definition following_id (ids : list Z) : Z :=
  match py_max ids with
  | Some m => (m + 1)%Z
  | None => 1%Z
  end.


(** [os.remove] accepts the path: it removes the file that is there or
    raises [FileNotFoundError]. *)
Definition removable (path : string) : Prop := path_error path = None.

(** The path can be opened for writing. *)
Definition writable (path : string) : Prop := write_error path = None.

(** The run returns. *)
Definition returns {A} (o : outcome A) : Prop := exists a s', o = Ok a s'.

(** The answer of [@login_required] to an anonymous request. *)
Definition turned_away (s : state) : outcome response :=
  Ok (Redirect "login")
     (add_flash ("Please log in to access this page.", "message") s).

(** ** The state monad *)

Lemma set_fs_same s : set_fs (fs s) s = s.
Proof. by destruct s. Qed.

Lemma bind_Ok {A B} (m : M A) (k : A -> M B) s a s' :
  m s = Ok a s' -> bind m k s = k a s'.
Proof. unfold bind. by intros ->. Qed.

Lemma bind_assoc {A B C} (m : M A) (k : A -> M B) (k' : B -> M C) s :
  bind (bind m k) k' s = bind m (fun a => bind (k a) k') s.
Proof. unfold bind. by destruct (m s). Qed.

Lemma bind_ret {A B} (a : A) (k : A -> M B) s : bind (ret a) k s = k a s.
Proof. done. Qed.

Lemma bind_of_option_Some {A B} e (a : A) (k : A -> M B) s :
  bind (of_option e (Some a)) k s = k a s.
Proof. done. Qed.

Lemma bind_flash {B} message category (k : unit -> M B) s :
  bind (flash message category) k s = k tt (add_flash (message, category) s).
Proof. done. Qed.

Lemma login_required_authenticated view s :
  is_authenticated s = true -> login_required view s = view s.
Proof. unfold login_required. by intros ->. Qed.

Lemma login_required_anonymous view s :
  is_authenticated s = false ->
  login_required view s
  = Ok (Redirect "login")
       (add_flash ("Please log in to access this page.", "message") s).
Proof. unfold login_required. by intros ->. Qed.

Lemma bind_Raised {A B} (m : M A) (k : A -> M B) s e s' :
  m s = Raised e s' -> bind m k s = Raised e s'.
Proof. unfold bind. by intros ->. Qed.

Lemma bind_of_option_None {A B} e (k : A -> M B) s :
  bind (of_option e None) k s = Raised e s.
Proof. done. Qed.

(** Case analysis on the two JSON files of a state. *)
Ltac cases_of s := destruct s as [[| | |?] [| | |?] ? ? ?].

Lemma load_products_run s :
  products_file s <> Unreadable ->
  load_products s = Ok (products_of s) (reset_products s).
Proof.
  unfold load_products, try_except, products_of, reset_products.
  by destruct (products_file s).
Qed.

Lemma load_products_unreadable s :
  products_file s = Unreadable -> load_products s = Raised UnicodeDecodeError s.
Proof. unfold load_products, try_except. by intros ->. Qed.

Lemma load_categories_run s :
  categories_file s <> Unreadable ->
  load_categories s = Ok (categories_of s) (reset_categories s).
Proof.
  unfold load_categories, try_except, categories_of, reset_categories.
  by destruct (categories_file s).
Qed.

Lemma load_categories_unreadable s :
  categories_file s = Unreadable -> load_categories s = Raised UnicodeDecodeError s.
Proof. unfold load_categories, try_except. by intros ->. Qed.

Lemma products_of_reset s : products_of (reset_products s) = products_of s.
Proof. by cases_of s. Qed.

Lemma categories_of_reset_products s :
  categories_of (reset_products s) = categories_of s.
Proof. by cases_of s. Qed.

Lemma products_of_reset_categories s :
  products_of (reset_categories s) = products_of s.
Proof. by cases_of s. Qed.

Lemma products_file_reset_categories s :
  products_file (reset_categories s) = products_file s.
Proof. by cases_of s. Qed.

Lemma categories_file_reset_products s :
  categories_file (reset_products s) = categories_file s.
Proof. by cases_of s. Qed.

Lemma load_categories_after_products s :
  categories_file s <> Unreadable ->
  load_categories (reset_products s)
  = Ok (categories_of s) (reset_categories (reset_products s)).
Proof.
  intros Hc. rewrite load_categories_run, categories_of_reset_products; [done|].
  by rewrite categories_file_reset_products.
Qed.

Lemma load_products_after_categories s :
  products_file s <> Unreadable ->
  load_products (reset_categories s)
  = Ok (products_of s) (reset_products (reset_categories s)).
Proof.
  intros Hp. rewrite load_products_run, products_of_reset_categories; [done|].
  by rewrite products_file_reset_categories.
Qed.

(** ** Loading a collection *)

(** C5: a load of the products or of the categories returns the decoded
    contents of the file and leaves the state alone when the file decodes;
    when the file is missing or [json.load] raises [JSONDecodeError], the
    load returns the empty collection and the file has been rewritten as the
    empty collection.  A file that is not UTF-8 text is not treated so: the
    [UnicodeDecodeError] of reading it is not among the exceptions that the
    load catches, so the load raises and the file stays as it is. *)
Theorem load_resets_on_caught_errors_only s :
  match products_file s with
  | Decoded data => load_products s = Ok data s
  | Unreadable => load_products s = Raised UnicodeDecodeError s
  | Missing | Undecodable =>
      load_products s = Ok [] (set_products_file (Decoded []) s)
  end
  /\ match categories_file s with
     | Decoded data => load_categories s = Ok data s
     | Unreadable => load_categories s = Raised UnicodeDecodeError s
     | Missing | Undecodable =>
         load_categories s = Ok [] (set_categories_file (Decoded []) s)
     end.
Proof.
  split.
  - unfold load_products, try_except. by destruct (products_file s).
  - unfold load_categories, try_except. by destruct (categories_file s).
Qed.

(** ** The featured products of the index page *)

Lemma insert_reverse_perm {A} (key : A -> Z) x (l : list A) :
  insert_reverse key x l ≡ₚ x :: l.
Proof.
  induction l as [|y l IH]; simpl; [done|].
  destruct (key x <? key y)%Z; [|done].
  rewrite IH. apply Permutation_swap.
Qed.

Lemma sorted_reverse_perm {A} (key : A -> Z) (l : list A) :
  sorted_reverse key l ≡ₚ l.
Proof.
  induction l as [|x l IH]; simpl; [done|].
  rewrite insert_reverse_perm. by rewrite IH.
Qed.

Lemma insert_reverse_sorted {A} (key : A -> Z) x (l : list A) :
  StronglySorted (fun a b => (key b <= key a)%Z) l ->
  StronglySorted (fun a b => (key b <= key a)%Z) (insert_reverse key x l).
Proof.
  induction 1 as [|y l Hl IH Hy]; simpl.
  - repeat constructor.
  - destruct (key x <? key y)%Z eqn:E.
    + apply Z.ltb_lt in E. constructor; [done|].
      rewrite insert_reverse_perm. constructor; [lia|done].
    + apply Z.ltb_ge in E. constructor; [by constructor|].
      constructor; [done|].
      eapply Forall_impl; [exact Hy|]. simpl. intros z Hz. lia.
Qed.

Lemma sorted_reverse_sorted {A} (key : A -> Z) (l : list A) :
  StronglySorted (fun a b => (key b <= key a)%Z) (sorted_reverse key l).
Proof.
  induction l as [|x l IH]; simpl; [constructor|].
  by apply insert_reverse_sorted.
Qed.

Lemma StronglySorted_take_drop {A} (R : A -> A -> Prop) n (l : list A) :
  StronglySorted R l ->
  StronglySorted R (take n l)
  /\ Forall (fun q => Forall (fun p => R q p) (drop n l)) (take n l).
Proof.
  intros Hl. rewrite <- (take_drop n l) in Hl at 1.
  split.
  - by apply StronglySorted_app_1_l in Hl.
  - apply Forall_forall. intros q Hq. apply Forall_forall. intros p Hp.
    by eapply StronglySorted_app_1_elem_of.
Qed.

(** C9: when the two JSON files can be read, the index page renders at
    most 4 featured products, all of which have a views field, in order of
    non-increasing views; together with the products [rest] that have a
    views field and are left out they are the products with a views field,
    and no product of [rest] has more views than a featured one. *)
Theorem index_featured_products s :
  products_file s <> Unreadable ->
  categories_file s <> Unreadable ->
  exists featured rest,
    index s = Ok (render_index (products_of s) (categories_of s) featured)
                 (reset_categories (reset_products s))
    /\ length featured <= 4
    /\ Forall (fun p => is_Some (Product.views p)) featured
    /\ StronglySorted views_ge featured
    /\ filter (fun p => is_Some (Product.views p)) (products_of s) ≡ₚ featured ++ rest
    /\ Forall (fun q => Forall (fun p => (views_key p <= views_key q)%Z) rest) featured.
Proof.
  intros Hproducts Hcategories.
  set (viewed := filter (fun p => is_Some (Product.views p)) (products_of s)).
  set (ranked := sorted_reverse views_key viewed).
  exists (take 4 ranked), (drop 4 ranked).
  destruct (StronglySorted_take_drop views_ge 4 ranked) as [Hsorted Hrest];
    [apply sorted_reverse_sorted|].
  assert (Hperm : ranked ≡ₚ viewed) by apply sorted_reverse_perm.
  split; [|split; [|split; [|split; [|split]]]].
  - unfold index.
    rewrite (bind_Ok _ _ _ _ _ (load_products_run s Hproducts)).
    by rewrite (bind_Ok _ _ _ _ _ (load_categories_after_products s Hcategories)).
  - rewrite length_take. lia.
  - apply Forall_take. rewrite Forall_forall. intros p Hp.
    rewrite Hperm in Hp. by apply list_elem_of_filter in Hp as [? _].
  - done.
  - by rewrite take_drop.
  - done.
Qed.

(** ** Removing stored images *)

Lemma lookup_unlink_all paths (m : gmap string bytes) path :
  unlink_all paths m !! path = if decide (path ∈ paths) then None else m !! path.
Proof.
  unfold unlink_all. revert m.
  induction paths as [|p paths IH]; intros m; simpl.
  - done.
  - rewrite IH. destruct (decide (path ∈ paths)) as [Hin|Hnin].
    + rewrite decide_True; [done|]. by apply list_elem_of_further.
    + destruct (decide (path = p)) as [->|Hne].
      * rewrite lookup_delete_eq, decide_True; [done|]. apply list_elem_of_here.
      * rewrite lookup_delete_ne, decide_False; [done| |done].
        by intros [?|?]%elem_of_cons.
Qed.

Lemma unlink_all_app l1 l2 (m : gmap string bytes) :
  unlink_all (l1 ++ l2) m = unlink_all l2 (unlink_all l1 m).
Proof. apply foldl_app. Qed.

(** The clean-up never raises: a missing file is skipped. *)
(** The clean-up of an image swallows a missing file, and raises on a
    path that [os.remove] refuses. *)
Lemma remove_image_run image s :
  Forall removable (image_paths image) ->
  remove_image image s = Ok tt (set_fs (unlink_all (image_paths image) (fs s)) s).
Proof.
  unfold remove_image, image_paths, unlink_all.
  destruct image as [url|]; [|by rewrite <- (set_fs_same s) at 1].
  destruct (truthy (Some url)); [|by rewrite <- (set_fs_same s) at 1].
  intros [Hpath _]%Forall_cons. unfold removable, image_path in Hpath.
  unfold try_except, os_remove. rewrite Hpath. simpl.
  destruct (fs s !! _) eqn:E; [done|].
  simpl. unfold ret. by rewrite delete_id, set_fs_same.
Qed.

Lemma remove_image_raises image s :
  ¬ Forall removable (image_paths image) ->
  exists e, remove_image image s = Raised e s
            /\ (e = IsADirectoryError \/ e = OSError).
Proof.
  unfold remove_image, image_paths.
  destruct image as [url|]; [|by intros []].
  destruct (truthy (Some url)); [|by intros []].
  intros Hbad.
  assert (Hpath : path_error (image_path url) <> None).
  { intros Hnone. apply Hbad. by repeat constructor. }
  unfold try_except, os_remove. fold (image_path url).
  unfold path_error in *.
  destruct (names_directory (image_path url)); [by eexists; eauto|].
  destruct (NAME_MAX <? _)%nat; [by eexists; eauto|done].
Qed.

Lemma remove_image_cases image s :
  remove_image image s = Ok tt (set_fs (unlink_all (image_paths image) (fs s)) s)
  \/ exists e, remove_image image s = Raised e s.
Proof.
  destruct (decide (Forall removable (image_paths image))) as [Hok|Hbad].
  - left. by apply remove_image_run.
  - right. destruct (remove_image_raises image s Hbad) as (e & He & _). by exists e.
Qed.

(** ** Deleting a product *)

Lemma filter_Forall_id {A} (P : A -> Prop) `{!forall x, Decision (P x)} (l : list A) :
  Forall P l -> filter P l = l.
Proof.
  induction 1 as [|x l Hx Hl IH]; [done|].
  rewrite filter_cons_True by done. by rewrite IH.
Qed.

Lemma delete_product_run product_id s :
  is_authenticated s = true ->
  products_file s <> Unreadable ->
  Forall removable
         (found_image_paths Product.image
            (list_find (fun p => Product.id p = product_id) (products_of s))) ->
  delete_product product_id s
  = Ok (Redirect "admin")
       (add_flash ("Producto eliminado exitosamente!", "message")
          (set_products_file
             (Decoded (filter (fun p => Product.id p ≠ product_id) (products_of s)))
             (set_fs
                (unlink_all
                   (found_image_paths Product.image
                      (list_find (fun p => Product.id p = product_id) (products_of s)))
                   (fs s))
                s))).
Proof.
  intros Hauth Hread Hpaths. unfold delete_product.
  rewrite login_required_authenticated by done.
  rewrite (bind_Ok _ _ _ _ _ (load_products_run s Hread)).
  destruct (list_find _ _) as [[i p]|]; simpl in *.
  - rewrite (bind_Ok _ _ _ _ _ (remove_image_run _ _ Hpaths)).
    by cases_of s.
  - rewrite bind_ret. by cases_of s.
Qed.

(** C10: for an authenticated admin, a products file that can be read and
    an image path of the first product of the given id, if any, that
    [os.remove] accepts, [delete_product] stores the products in their order
    without those whose id is the given one, and redirects to the admin page
    with the success message, also when no product has that id, in which
    case the collection is the one it was. *)
Theorem delete_product_removes_exactly product_id s :
  is_authenticated s = true ->
  products_file s <> Unreadable ->
  Forall removable
         (found_image_paths Product.image
            (list_find (fun p => Product.id p = product_id) (products_of s))) ->
  exists s',
    delete_product product_id s = Ok (Redirect "admin") s'
    /\ products_file s'
       = Decoded (filter (fun p => Product.id p ≠ product_id) (products_of s))
    /\ flashes s' = flashes s ++ [("Producto eliminado exitosamente!", "message")]
    /\ (Forall (fun p => Product.id p ≠ product_id) (products_of s) ->
        products_of s' = products_of s).
Proof.
  intros Hauth Hread Hpaths. eexists. split; [by apply delete_product_run|].
  split; [by cases_of s|].
  split; [by cases_of s|].
  intros Hall. unfold products_of at 1. simpl. by apply filter_Forall_id.
Qed.

(** ** Counting a view *)

(** C6: [record_view] looks for the first product with the given id.
    When there is one, at index [i], it answers with success and stores the
    collection in which that product has one more view (one view when it
    had no views field) and nothing else differs; when there is none it
    answers 404 with an error and the products collection is the one it
    was (the whole state is, when the products file decodes).  On a
    products file that cannot be read, the load raises and nothing
    changes. *)
Theorem record_view_increments product_id s :
  match products_file s with
  | Unreadable => record_view product_id s = Raised UnicodeDecodeError s
  | _ =>
    match list_find (fun p => Product.id p = product_id) (products_of s) with
    | Some (i, p) =>
        products_of s !! i = Some p
        /\ Product.id p = product_id
        /\ record_view product_id s
           = Ok (jsonify true None 200)
                (set_products_file
                   (Decoded (<[i := Product.set_views (views_key p + 1) p]> (products_of s)))
                   s)
    | None =>
        Forall (fun p => Product.id p ≠ product_id) (products_of s)
        /\ record_view product_id s
           = Ok (jsonify false (Some "Product not found") 404) (reset_products s)
        /\ products_of (reset_products s) = products_of s
        /\ match products_file s with
           | Decoded _ => reset_products s = s
           | _ => True
           end
    end
  end.
Proof.
  assert (Hread : products_file s <> Unreadable ->
    match list_find (fun p => Product.id p = product_id) (products_of s) with
    | Some (i, p) =>
        products_of s !! i = Some p
        /\ Product.id p = product_id
        /\ record_view product_id s
           = Ok (jsonify true None 200)
                (set_products_file
                   (Decoded (<[i := Product.set_views (views_key p + 1) p]> (products_of s)))
                   s)
    | None =>
        Forall (fun p => Product.id p ≠ product_id) (products_of s)
        /\ record_view product_id s
           = Ok (jsonify false (Some "Product not found") 404) (reset_products s)
        /\ products_of (reset_products s) = products_of s
        /\ match products_file s with
           | Decoded _ => reset_products s = s
           | _ => True
           end
    end).
  { intros Hr. unfold record_view.
    rewrite (bind_Ok _ _ _ _ _ (load_products_run s Hr)).
    destruct (list_find _ _) as [[i p]|] eqn:Hfind.
    - apply list_find_Some in Hfind as (Hi & Hid & _).
      split; [done|]. split; [done|].
      assert (Hstore : forall q,
        set_products_file (Decoded q) (reset_products s)
        = set_products_file (Decoded q) s) by by cases_of s.
      unfold bind, save_products, ret, views_key. rewrite Hstore.
      destruct p as [? ? ? ? ? ? [v|]]; reflexivity.
    - apply list_find_None in Hfind.
      split; [done|]. split; [done|]. split; [apply products_of_reset|].
      by cases_of s. }
  destruct (products_file s) eqn:Hfile; try (by apply Hread).
  unfold record_view. by rewrite (bind_Raised _ _ _ _ _ (load_products_unreadable s Hfile)).
Qed.

(** ** Deleting a category *)

Lemma filter_none_id {A} (P : A -> Prop) `{!forall x, Decision (P x)} (l : list A) :
  filter P l = [] -> filter (fun x => ¬ P x) l = l.
Proof.
  induction l as [|x l IH]; [done|].
  destruct (decide (P x)) as [Hx|Hx].
  - by rewrite filter_cons_True.
  - rewrite filter_cons_False by done. intros Hl.
    rewrite filter_cons_True by done. by rewrite IH.
Qed.

Lemma delete_category_loop_run category_id products keep count s :
  Forall removable (cascade_paths category_id products) ->
  delete_category_loop category_id products keep count s
  = Ok (keep ++ filter (fun p => Product.category_id p ≠ Some category_id) products,
        (count + Z.of_nat (length (filter (fun p => Product.category_id p
                                                  = Some category_id) products)))%Z)
       (set_fs (unlink_all (cascade_paths category_id products) (fs s)) s).
Proof.
  revert keep count s.
  induction products as [|p products IH]; intros keep count s Hpaths; simpl.
  - unfold ret, cascade_paths. simpl.
    by rewrite app_nil_r, Z.add_0_r, set_fs_same.
  - unfold cascade_paths in *. case_bool_decide as Hp.
    + rewrite (filter_cons_True (fun p => Product.category_id p = _)) in Hpaths by done.
      simpl in Hpaths. apply Forall_app in Hpaths as [Hhere Hrest].
      rewrite (bind_Ok _ _ _ _ _ (remove_image_run _ s Hhere)), IH by done.
      rewrite filter_cons_False by (by intros ?).
      rewrite (filter_cons_True (fun p => Product.category_id p = _)) by done.
      simpl. rewrite unlink_all_app, Nat2Z.inj_succ, <- Z.add_1_l, Z.add_assoc.
      by destruct s.
    + rewrite (filter_cons_False (fun p => Product.category_id p = _)) in Hpaths by done.
      rewrite IH by done. rewrite filter_cons_True by done.
      rewrite (filter_cons_False (fun p => Product.category_id p = _)) by done.
      by rewrite <- app_assoc.
Qed.

(** When a clean-up of the loop raises, the files may have changed and
    nothing else has. *)
Lemma delete_category_loop_raises category_id products keep count s :
  ¬ Forall removable (cascade_paths category_id products) ->
  exists e m, delete_category_loop category_id products keep count s
              = Raised e (set_fs m s).
Proof.
  revert keep count s.
  induction products as [|p products IH]; intros keep count s Hbad; simpl.
  - destruct Hbad. constructor.
  - unfold cascade_paths in *. case_bool_decide as Hp.
    + rewrite (filter_cons_True (fun p => Product.category_id p = _)) in Hbad by done.
      simpl in Hbad.
      destruct (decide (Forall removable (image_paths (Product.image p))))
        as [Hhere|Hhere].
      * rewrite (bind_Ok _ _ _ _ _ (remove_image_run _ s Hhere)).
        destruct (IH keep (count + 1)%Z
                    (set_fs (unlink_all (image_paths (Product.image p)) (fs s)) s))
          as (e & m & Hrun).
        { intros Hrest. apply Hbad. by apply Forall_app. }
        exists e, m. rewrite Hrun. by destruct s.
      * destruct (remove_image_raises _ s Hhere) as (e & Hrun & _).
        exists e, (fs s). by rewrite (bind_Raised _ _ _ _ _ Hrun), set_fs_same.
    + rewrite (filter_cons_False (fun p => Product.category_id p = _)) in Hbad by done.
      by apply IH.
Qed.

Lemma delete_category_found category_id s i category_to_delete :
  is_authenticated s = true ->
  products_file s <> Unreadable ->
  categories_file s <> Unreadable ->
  list_find (fun c => Category.id c = category_id) (categories_of s)
  = Some (i, category_to_delete) ->
  Forall removable (image_paths (Category.image category_to_delete)
                    ++ cascade_paths category_id (products_of s)) ->
  exists s',
    delete_category category_id s = Ok (Redirect "manage_categories") s'
    /\ categories_file s'
       = Decoded (filter (fun c => Category.id c ≠ category_id) (categories_of s))
    /\ products_of s'
       = filter (fun p => Product.category_id p ≠ Some category_id) (products_of s)
    /\ fs s' = unlink_all (image_paths (Category.image category_to_delete)
                             ++ cascade_paths category_id (products_of s)) (fs s).
Proof.
  intros Hauth Hproducts Hcategories Hfind [Himage Hcascade]%Forall_app.
  unfold delete_category. rewrite login_required_authenticated by done.
  rewrite (bind_Ok _ _ _ _ _ (load_categories_run s Hcategories)).
  rewrite (bind_Ok _ _ _ _ _ (load_products_after_categories s Hproducts)).
  rewrite Hfind.
  rewrite (bind_Ok _ _ _ _ _ (remove_image_run _ _ Himage)).
  unfold save_categories at 1. unfold bind at 1.
  rewrite (bind_Ok _ _ _ _ _ (delete_category_loop_run _ _ _ _ _ Hcascade)).
  cbn [fst snd app]. rewrite Z.add_0_l, unlink_all_app.
  destruct (filter (fun p => Product.category_id p = Some category_id) (products_of s))
    as [|g gone] eqn:Hgone; simpl;
    unfold bind, flash, save_products, ret; simpl;
    (eexists; split; [reflexivity|]).
  - split; [by cases_of s|].
    split; [|by cases_of s].
    apply filter_none_id in Hgone. rewrite Hgone.
    by cases_of s.
  - split; [by cases_of s|].
    split; by cases_of s.
Qed.

Lemma delete_category_not_found category_id s :
  is_authenticated s = true ->
  products_file s <> Unreadable ->
  categories_file s <> Unreadable ->
  list_find (fun c => Category.id c = category_id) (categories_of s) = None ->
  delete_category category_id s
  = Ok (Redirect "manage_categories")
       (add_flash ("Categoría no encontrada.", "warning")
          (reset_products (reset_categories s))).
Proof.
  intros Hauth Hproducts Hcategories Hfind.
  unfold delete_category. rewrite login_required_authenticated by done.
  rewrite (bind_Ok _ _ _ _ _ (load_categories_run s Hcategories)).
  rewrite (bind_Ok _ _ _ _ _ (load_products_after_categories s Hproducts)).
  by rewrite Hfind.
Qed.

(** C1: for an authenticated admin, JSON files that can be read, a
    category id whose first category is [category_to_delete], and image
    paths of that category and of its products that [os.remove] accepts,
    [delete_category] stores the categories without those of that id and
    leaves as products those whose [category_id] is not that id, in their
    order and as they were; the files it removes are the image file of
    [category_to_delete] and the image files of the products of that id,
    every other file being kept. *)
Theorem delete_category_cascades category_id s i category_to_delete :
  is_authenticated s = true ->
  products_file s <> Unreadable ->
  categories_file s <> Unreadable ->
  list_find (fun c => Category.id c = category_id) (categories_of s)
  = Some (i, category_to_delete) ->
  Forall removable (image_paths (Category.image category_to_delete)
                    ++ cascade_paths category_id (products_of s)) ->
  exists s',
    delete_category category_id s = Ok (Redirect "manage_categories") s'
    /\ categories_file s'
       = Decoded (filter (fun c => Category.id c ≠ category_id) (categories_of s))
    /\ products_of s'
       = filter (fun p => Product.category_id p ≠ Some category_id) (products_of s)
    /\ forall path,
         fs s' !! path
         = if decide (path ∈ image_paths (Category.image category_to_delete)
                             ++ cascade_paths category_id (products_of s))
           then None else fs s !! path.
Proof.
  intros Hauth Hproducts Hcategories Hfind Hpaths.
  destruct (delete_category_found category_id s i category_to_delete
              Hauth Hproducts Hcategories Hfind Hpaths)
    as (s' & Hrun & Hcats & Hprods & Hfs).
  exists s'. repeat (split; [done|]).
  intros path. by rewrite Hfs, lookup_unlink_all.
Qed.

(** ** Saving an uploaded image *)

Lemma write_file_run path data s :
  writable path -> write_file path data s = Ok tt (stored path data s).
Proof. unfold writable, write_file. by intros ->. Qed.

Lemma write_file_raises path data s e :
  write_error path = Some e -> write_file path data s = Raised e s.
Proof. unfold write_file. by intros ->. Qed.

(** The [try] of [save_image] either raises, leaving every file alone but
    the WebP file, which is truncated if it was there, or decodes the
    upload, converts a palette image to RGBA, encodes the image as WebP
    with [quality=85] and writes the result. *)
Lemma convert_to_webp_cases file_storage webp_filepath s :
  (exists e m,
      convert_to_webp file_storage webp_filepath s = Raised e (set_fs m s)
      /\ (forall path, path ≠ webp_filepath -> m !! path = fs s !! path)
      /\ (fs s !! webp_filepath = None -> m = fs s))
  \/ exists image image' data,
       Image_open (stream file_storage) = Some image
       /\ (if bool_decide (Image_mode image ∈ ["P"; "PA"])
           then Image_convert image "RGBA" = Some image' else image' = image)
       /\ Image_save image' "webp" [("quality", 85%Z)] = Some data
       /\ writable webp_filepath
       /\ convert_to_webp file_storage webp_filepath s
          = Ok tt (stored webp_filepath data s).
Proof.
  assert (Hsame : forall e, exists e' m,
    @Raised unit e s = Raised e' (set_fs m s)
    /\ (forall path, path ≠ webp_filepath -> m !! path = fs s !! path)
    /\ (fs s !! webp_filepath = None -> m = fs s)).
  { intros e. exists e, (fs s). by rewrite set_fs_same. }
  assert (Hsave : forall image',
    (exists e m,
        image_save image' webp_filepath "webp" [("quality", 85%Z)] s
        = Raised e (set_fs m s)
        /\ (forall path, path ≠ webp_filepath -> m !! path = fs s !! path)
        /\ (fs s !! webp_filepath = None -> m = fs s))
    \/ exists data,
         Image_save image' "webp" [("quality", 85%Z)] = Some data
         /\ writable webp_filepath
         /\ image_save image' webp_filepath "webp" [("quality", 85%Z)] s
            = Ok tt (stored webp_filepath data s)).
  { intros image'. unfold image_save, writable.
    destruct (Image_save image' _ _) as [data|].
    - unfold write_file. destruct (write_error webp_filepath) as [e|].
      + left. apply Hsame.
      + right. by exists data.
    - left. destruct (Image_save_leftover image' _ _) as [written|]; [|apply Hsame].
      destruct (write_error webp_filepath) as [e|]; [apply Hsame|].
      destruct (fs s !! webp_filepath) eqn:Hthere; [|apply Hsame].
      exists ImageError, (<[webp_filepath := written]> (fs s)).
      split; [done|]. split; [|done].
      intros path Hne. by rewrite lookup_insert_ne. }
  unfold convert_to_webp, bind, of_option, raise, ret.
  destruct (Image_open _) as [image|]; [|left; apply Hsame].
  destruct (bool_decide (Image_mode image ∈ ["P"; "PA"])) eqn:Hmode.
  - destruct (Image_convert image "RGBA") as [image'|] eqn:Hconv; [|left; apply Hsame].
    destruct (Hsave image') as [Hraise|(data & Hdata & Hw & Hrun)]; [by left|].
    right. exists image, image', data. by rewrite Hmode.
  - destruct (Hsave image) as [Hraise|(data & Hdata & Hw & Hrun)]; [by left|].
    right. exists image, image, data. by rewrite Hmode.
Qed.

(** The ways in which [save_image] ends. *)
Lemma save_image_cases file_storage output_folder basename s :
  (exists data,
      writable (os_path_join output_folder (basename +:+ ".webp"))
      /\ save_image file_storage output_folder basename s
         = Ok (basename +:+ ".webp", true)
              (stored (os_path_join output_folder (basename +:+ ".webp")) data s))
  \/ exists m,
       (forall path, path ≠ os_path_join output_folder (basename +:+ ".webp") ->
                     m !! path = fs s !! path)
       /\ (fs s !! os_path_join output_folder (basename +:+ ".webp") = None -> m = fs s)
       /\ ((writable (os_path_join output_folder
                        (basename +:+ original_extension file_storage))
            /\ save_image file_storage output_folder basename s
               = Ok (basename +:+ original_extension file_storage, false)
                    (stored (os_path_join output_folder
                               (basename +:+ original_extension file_storage))
                            (stream file_storage) (set_fs m s)))
           \/ exists e,
                write_error (os_path_join output_folder
                               (basename +:+ original_extension file_storage))
                = Some e
                /\ save_image file_storage output_folder basename s
                   = Raised e (set_fs m s)).
Proof.
  assert (Hfallback : forall m,
    (writable (os_path_join output_folder
                 (basename +:+ original_extension file_storage))
     /\ (write_file (os_path_join output_folder
                       (basename +:+ original_extension file_storage))
                    (stream file_storage) ;;
         ret (basename +:+ original_extension file_storage, false)) (set_fs m s)
        = Ok (basename +:+ original_extension file_storage, false)
             (stored (os_path_join output_folder
                        (basename +:+ original_extension file_storage))
                     (stream file_storage) (set_fs m s)))
    \/ exists e,
         write_error (os_path_join output_folder
                        (basename +:+ original_extension file_storage))
         = Some e
         /\ (write_file (os_path_join output_folder
                           (basename +:+ original_extension file_storage))
                        (stream file_storage) ;;
             ret (basename +:+ original_extension file_storage, false)) (set_fs m s)
            = Raised e (set_fs m s)).
  { intros m.
    destruct (write_error (os_path_join output_folder
                (basename +:+ original_extension file_storage))) as [e|] eqn:Hw.
    - right. exists e. split; [done|].
      by rewrite (bind_Raised _ _ _ _ _ (write_file_raises _ _ _ _ Hw)).
    - left. split; [done|]. by rewrite (bind_Ok _ _ _ _ _ (write_file_run _ _ _ Hw)). }
  destruct (decide (original_extension file_storage
                    ∈ supported_formats_for_conversion)) as [Hext|Hext].
  - destruct (convert_to_webp_cases file_storage
                (os_path_join output_folder (basename +:+ ".webp")) s)
      as [(e & m & Hc & Hframe & Hnone)|(? & ? & data & _ & _ & _ & Hw & Hc)].
    + right. exists m. split; [done|]. split; [done|].
      assert (Hrun : save_image file_storage output_folder basename s
        = (write_file (os_path_join output_folder
                         (basename +:+ original_extension file_storage))
                      (stream file_storage) ;;
           ret (basename +:+ original_extension file_storage, false)) (set_fs m s)).
      { unfold save_image. fold (original_extension file_storage).
        rewrite bool_decide_eq_true_2 by done.
        unfold bind at 1. unfold try_except, bind at 1. by rewrite Hc. }
      rewrite Hrun. apply Hfallback.
    + left. exists data. split; [done|].
      unfold save_image. fold (original_extension file_storage).
      rewrite bool_decide_eq_true_2 by done.
      unfold bind at 1. unfold try_except, bind at 1. by rewrite Hc.
  - right. exists (fs s). split; [done|]. split; [done|].
    assert (Hrun : save_image file_storage output_folder basename s
      = (write_file (os_path_join output_folder
                       (basename +:+ original_extension file_storage))
                    (stream file_storage) ;;
         ret (basename +:+ original_extension file_storage, false))
          (set_fs (fs s) s)).
    { unfold save_image. fold (original_extension file_storage).
      by rewrite bool_decide_eq_false_2, set_fs_same by done. }
    rewrite Hrun. apply Hfallback.
Qed.

(** [save_image] changes nothing but files. *)
Lemma save_image_outcome file_storage output_folder basename s :
  (exists r m, save_image file_storage output_folder basename s = Ok r (set_fs m s))
  \/ (exists e m, save_image file_storage output_folder basename s
                  = Raised e (set_fs m s)).
Proof.
  destruct (save_image_cases file_storage output_folder basename s)
    as [(data & _ & ->)|(m & _ & _ & [[_ ->]|(e & _ & ->)])].
  - left. by eexists _, _.
  - left. eexists _, _. unfold stored. by destruct s.
  - right. by eexists _, _.
Qed.


(** C3: when the extension of the sanitized file name, in lower case, is
    one of the six raster extensions and the decoding, conversion and
    encoding of the upload succeed, [save_image] stores under the basename
    followed by [.webp] the bytes that Pillow encodes in the WebP format
    with [quality=85] and no request for the lossless encoder, from the
    decoded image or, for the modes P and PA, from its conversion to RGBA,
    and returns that name with the flag [True]; the encoded image has the
    size of the decoded one as long as Pillow's [convert] keeps the size. *)
Theorem save_image_converts file_storage output_folder basename s :
  (forall i m i', Image_convert i m = Some i' -> Image_size i' = Image_size i) ->
  original_extension file_storage ∈ supported_formats_for_conversion ->
  (exists s',
     convert_to_webp file_storage
       (os_path_join output_folder (basename +:+ ".webp")) s = Ok tt s') ->
  exists image image' data,
    Image_open (stream file_storage) = Some image
    /\ (if bool_decide (Image_mode image ∈ ["P"; "PA"])
        then Image_convert image "RGBA" = Some image' else image' = image)
    /\ Image_size image' = Image_size image
    /\ Image_save image' "webp" [("quality", 85%Z)] = Some data
    /\ save_image file_storage output_folder basename s
       = Ok (basename +:+ ".webp", true)
            (stored (os_path_join output_folder (basename +:+ ".webp")) data s).
Proof.
  intros Hsize Hext [s' Hok].
  destruct (convert_to_webp_cases file_storage
              (os_path_join output_folder (basename +:+ ".webp")) s)
    as [(e & m & Hc & _)|(image & image' & data & Hopen & Hconv & Hsave & _ & Hc)];
    [congruence|].
  exists image, image', data.
  split; [done|]. split; [done|]. split.
  { destruct (bool_decide _); [by eapply Hsize|by subst]. }
  split; [done|].
  unfold save_image. fold (original_extension file_storage).
  rewrite bool_decide_eq_true_2 by done.
  unfold bind at 1. unfold try_except, bind at 1. by rewrite Hc.
Qed.

(** ** Creating products and categories *)

Lemma foldl_max_spec (r : list Z) (x : Z) :
  foldl Z.max x r ∈ x :: r
  /\ (x <= foldl Z.max x r)%Z
  /\ Forall (fun y => (y <= foldl Z.max x r)%Z) r.
Proof.
  revert x. induction r as [|y r IH]; intros x; simpl.
  - split; [apply list_elem_of_here|]. split; [lia|constructor].
  - destruct (IH (Z.max x y)) as (Hin & Hle & Hall).
    split; [|split; [lia|constructor; [lia|done]]].
    apply elem_of_cons in Hin as [Heq|Hin].
    + rewrite Heq. destruct (Z.max_spec x y) as [[_ ->]|[_ ->]].
      * apply list_elem_of_further, list_elem_of_here.
      * apply list_elem_of_here.
    + by do 2 apply list_elem_of_further.
Qed.

(** The computation of a new id does not raise. *)
Lemma next_id_run ids s :
  exists n, next_id ids s = Ok n s /\ is_next_id ids n.
Proof.
  destruct ids as [|x r].
  - exists 1%Z. split; [done|]. by left.
  - exists (foldl Z.max x r + 1)%Z. split; [done|]. right.
    destruct (foldl_max_spec r x) as (Hin & Hle & Hall).
    exists (foldl Z.max x r). split; [done|]. split; [|done].
    by constructor.
Qed.

Lemma next_id_following ids s : next_id ids s = Ok (following_id ids) s.
Proof. by destruct ids. Qed.

Lemma following_id_next ids : is_next_id ids (following_id ids).
Proof.
  destruct (next_id_run ids (State Missing Missing ∅ false [])) as (n & Hrun & Hnext).
  rewrite next_id_following in Hrun. by injection Hrun as <-.
Qed.

(** When [save_image] returns, the file that it names holds the data, and
    the other files are as they were, but for a WebP file of the basename
    that was there. *)
Lemma save_image_returns file_storage output_folder basename s :
  returns (save_image file_storage output_folder basename s) ->
  exists new_filename converted data m,
    save_image file_storage output_folder basename s
    = Ok (new_filename, converted) (set_fs m s)
    /\ m !! os_path_join output_folder new_filename = Some data
    /\ (new_filename = basename +:+ ".webp"
        \/ new_filename = basename +:+ original_extension file_storage)
    /\ (forall path,
          path ≠ os_path_join output_folder new_filename ->
          path ≠ os_path_join output_folder (basename +:+ ".webp") ->
          m !! path = fs s !! path)
    /\ (fs s !! os_path_join output_folder (basename +:+ ".webp") = None ->
        m = <[os_path_join output_folder new_filename := data]> (fs s)).
Proof.
  intros (r & s1 & Hret).
  destruct (save_image_cases file_storage output_folder basename s)
    as [(data & _ & Hrun)|(m & Hframe & Hnone & [[_ Hrun]|(e & _ & Hrun)])];
    [| |congruence].
  - exists (basename +:+ ".webp"), true, data,
      (<[os_path_join output_folder (basename +:+ ".webp") := data]> (fs s)).
    split; [by rewrite Hrun|]. split; [by rewrite lookup_insert_eq|].
    split; [by left|]. split; [|done].
    intros path Hne _. by rewrite lookup_insert_ne.
  - exists (basename +:+ original_extension file_storage), false,
      (stream file_storage),
      (<[os_path_join output_folder
           (basename +:+ original_extension file_storage)
         := stream file_storage]> m).
    split; [rewrite Hrun; unfold stored; by destruct s|].
    split; [by rewrite lookup_insert_eq|]. split; [by right|]. split.
    + intros path Hne Hne'. rewrite lookup_insert_ne by done. by apply Hframe.
    + intros Habsent. by rewrite (Hnone Habsent).
Qed.

(** C4: for an authenticated admin, a creation request that carries an
    image and a well-formed form, on a collection file that can be read and
    with an image that [save_image] manages to store, appends one product,
    whose id is 1 when there was no product and otherwise one more than the
    greatest id of the products; a category-creation request appends one
    category whose id follows the ids of the categories in the same way. *)
Theorem creation_assigns_next_id s :
  is_authenticated s = true ->
  (forall request file name description price_field price category_field category_id,
      products_file s <> Unreadable ->
      method request = POST ->
      uploaded_image request = Some file ->
      returns (save_image file UPLOAD_FOLDER
                 ("product_" +:+ pretty (following_id (product_ids s)))
                 (reset_products s)) ->
      form request !! "name" = Some name ->
      form request !! "description" = Some description ->
      form request !! "price" = Some price_field ->
      py_float price_field = Some price ->
      form request !! "category_id" = Some category_field ->
      py_int category_field = Some category_id ->
      exists new_product s',
        admin request s = Ok (Redirect "admin") s'
        /\ products_of s' = products_of s ++ [new_product]
        /\ is_next_id (Product.id <$> products_of s) (Product.id new_product))
  /\ (forall request file name,
        categories_file s <> Unreadable ->
        method request = POST ->
        uploaded_image request = Some file ->
        returns (save_image file UPLOAD_FOLDER
                   ("category_" +:+ pretty (following_id (category_ids s)))
                   (reset_categories s)) ->
        form request !! "name" = Some name ->
        exists new_category s',
          manage_categories request s = Ok (Redirect "manage_categories") s'
          /\ categories_of s' = categories_of s ++ [new_category]
          /\ is_next_id (Category.id <$> categories_of s) (Category.id new_category)).
Proof.
  intros Hauth. split.
  - intros request file name description price_field price category_field
      category_id Hread Hpost Hfile Hret Hname Hdesc Hprice Hfloat Hcat Hint.
    unfold admin. rewrite login_required_authenticated by done. rewrite Hpost.
    rewrite (bind_Ok _ _ _ _ _ (load_products_run s Hread)).
    rewrite (bind_Ok _ _ _ _ _ (next_id_following _ _)), Hfile.
    fold (product_ids s).
    destruct (save_image_returns _ _ _ _ Hret)
      as (new_filename & converted & data & m & Hsave & _).
    rewrite (bind_Ok _ _ _ _ _ Hsave). cbn [fst snd].
    destruct converted; rewrite ?bind_ret, ?bind_flash; unfold form_get;
      rewrite Hname, bind_of_option_Some, Hdesc, bind_of_option_Some,
        Hprice, bind_of_option_Some, Hfloat, bind_of_option_Some,
        Hcat, bind_of_option_Some, Hint, bind_of_option_Some;
      (eexists (Product.Build (following_id (product_ids s)) name description price _
                  (Some category_id) (Some 0%Z)), _;
       split; [reflexivity|]; split; [|apply following_id_next]);
      by cases_of s.
  - intros request file name Hread Hpost Hfile Hret Hname.
    unfold manage_categories. rewrite login_required_authenticated by done.
    rewrite Hpost.
    rewrite (bind_Ok _ _ _ _ _ (load_categories_run s Hread)).
    rewrite (bind_Ok _ _ _ _ _ (next_id_following _ _)), Hfile.
    fold (category_ids s).
    destruct (save_image_returns _ _ _ _ Hret)
      as (new_filename & converted & data & m & Hsave & _).
    rewrite (bind_Ok _ _ _ _ _ Hsave). cbn [fst snd].
    destruct converted; rewrite ?bind_ret, ?bind_flash; unfold form_get;
      rewrite Hname, bind_of_option_Some;
      (eexists (Category.Build (following_id (category_ids s)) name _), _;
       split; [reflexivity|]; split; [|apply following_id_next]);
      by cases_of s.
Qed.

(** ** Cleaning up a missing image file *)

(** When the file of the image is missing, [os.remove] raises
    [FileNotFoundError], the clean-up swallows it and nothing changes. *)
Lemma remove_missing_image url s :
  removable (image_path url) ->
  fs s !! image_path url = None ->
  os_remove (image_path url) s = Raised FileNotFoundError s
  /\ remove_image (Some url) s = Ok tt s.
Proof.
  intros Hpath Hmissing. split.
  - unfold os_remove. unfold removable in Hpath. by rewrite Hpath, Hmissing.
  - rewrite remove_image_run.
    + unfold image_paths, unlink_all.
      destruct (truthy (Some url)); simpl; by rewrite ?delete_id, set_fs_same.
    + unfold image_paths. destruct (truthy (Some url)); by repeat constructor.
Qed.

(** C7: for an authenticated admin and a collection file that can be
    read, when the image file of the product or category at hand is missing
    from the upload folder, so that [os.remove] raises [FileNotFoundError],
    [delete_product] still stores the products without those of the given id
    and redirects with no file changed, and [edit_product] and
    [edit_category], with a well-formed form and a new image that
    [save_image] manages to store, still store the edited entry with the new
    image and redirect, the new image being in the upload folder. *)
Theorem missing_image_file_is_ignored s :
  is_authenticated s = true ->
  (forall product_id i p url,
      products_file s <> Unreadable ->
      list_find (fun p => Product.id p = product_id) (products_of s) = Some (i, p) ->
      Product.image p = Some url ->
      removable (image_path url) ->
      fs s !! image_path url = None ->
      os_remove (image_path url) s = Raised FileNotFoundError s
      /\ exists s',
           delete_product product_id s = Ok (Redirect "admin") s'
           /\ products_of s'
              = filter (fun p => Product.id p ≠ product_id) (products_of s)
           /\ fs s' = fs s)
  /\ (forall request product_id i p url file name description price_field price
             category_field category_id,
        products_file s <> Unreadable ->
        list_find (fun p => Product.id p = product_id) (products_of s) = Some (i, p) ->
        Product.image p = Some url ->
        removable (image_path url) ->
        fs s !! image_path url = None ->
        method request = POST ->
        uploaded_image request = Some file ->
        returns (save_image file UPLOAD_FOLDER
                   ("product_" +:+ pretty product_id +:+ "_" +:+ pretty (now request))
                   (reset_products s)) ->
        form request !! "name" = Some name ->
        form request !! "description" = Some description ->
        form request !! "price" = Some price_field ->
        py_float price_field = Some price ->
        form request !! "category_id" = Some category_field ->
        py_int category_field = Some category_id ->
        exists s' new_filename data,
          edit_product request product_id s = Ok (Redirect "admin") s'
          /\ products_of s'
             = <[i := Product.set_image (url_for_uploaded_file new_filename)
                        (edited_product name description price category_id p)]>
                 (products_of s)
          /\ fs s' !! os_path_join UPLOAD_FOLDER new_filename = Some data)
  /\ (forall request category_id i c url file name,
        categories_file s <> Unreadable ->
        list_find (fun c => Category.id c = category_id) (categories_of s)
        = Some (i, c) ->
        Category.image c = Some url ->
        removable (image_path url) ->
        fs s !! image_path url = None ->
        method request = POST ->
        uploaded_image request = Some file ->
        returns (save_image file UPLOAD_FOLDER
                   ("category_" +:+ pretty category_id +:+ "_" +:+ pretty (now request))
                   (reset_categories s)) ->
        form request !! "name" = Some name ->
        exists s' new_filename data,
          edit_category request category_id s = Ok (Redirect "manage_categories") s'
          /\ categories_of s'
             = <[i := Category.set_image (url_for_uploaded_file new_filename)
                        (Category.set_name name c)]>
                 (categories_of s)
          /\ fs s' !! os_path_join UPLOAD_FOLDER new_filename = Some data).
Proof.
  intros Hauth. split; [|split].
  - intros product_id i p url Hread Hfind Himage Hpath Hmissing.
    split; [by apply remove_missing_image|].
    assert (Hpaths : Forall removable
      (found_image_paths Product.image
         (list_find (fun p => Product.id p = product_id) (products_of s)))).
    { rewrite Hfind. unfold found_image_paths, image_paths. rewrite Himage.
      destruct (truthy (Some url)); by repeat constructor. }
    eexists. split; [by apply delete_product_run|].
    rewrite Hfind. unfold found_image_paths, image_paths, unlink_all.
    rewrite Himage.
    split; [by cases_of s|].
    destruct (truthy (Some url)); simpl; rewrite ?delete_id by done;
      by destruct s.
  - intros request product_id i p url file name description price_field price
      category_field category_id Hread Hfind Himage Hpath Hmissing Hpost Hfile Hret
      Hname Hdesc Hprice Hfloat Hcat Hint.
    unfold edit_product. rewrite login_required_authenticated by done.
    rewrite (bind_Ok _ _ _ _ _ (load_products_run s Hread)), Hfind, Hpost.
    unfold form_get.
    rewrite Hname, bind_of_option_Some, Hdesc, bind_of_option_Some,
      Hprice, bind_of_option_Some, Hfloat, bind_of_option_Some,
      Hcat, bind_of_option_Some, Hint, bind_of_option_Some, Hfile.
    simpl Product.image. rewrite Himage.
    assert (Hfs : fs (reset_products s) !! image_path url = None)
      by by cases_of s.
    destruct (remove_missing_image url _ Hpath Hfs) as [_ Hclean].
    rewrite bind_assoc, (bind_Ok _ _ _ _ _ Hclean), bind_assoc.
    destruct (save_image_returns _ _ _ _ Hret)
      as (new_filename & converted & data & m & Hsave & Hstored & _).
    rewrite (bind_Ok _ _ _ _ _ Hsave), bind_assoc. cbn [fst snd].
    destruct converted; rewrite ?bind_ret, ?bind_flash;
      (eexists _, new_filename, data; split; [reflexivity|]);
      split; by cases_of s.
  - intros request category_id i c url file name Hread Hfind Himage Hpath Hmissing
      Hpost Hfile Hret Hname.
    unfold edit_category. rewrite login_required_authenticated by done.
    rewrite (bind_Ok _ _ _ _ _ (load_categories_run s Hread)), Hfind, Hpost.
    unfold form_get. rewrite Hname, bind_of_option_Some, Hfile.
    simpl Category.image. rewrite Himage.
    assert (Hfs : fs (reset_categories s) !! image_path url = None)
      by by cases_of s.
    destruct (remove_missing_image url _ Hpath Hfs) as [_ Hclean].
    rewrite bind_assoc, (bind_Ok _ _ _ _ _ Hclean), bind_assoc.
    destruct (save_image_returns _ _ _ _ Hret)
      as (new_filename & converted & data & m & Hsave & Hstored & _).
    rewrite (bind_Ok _ _ _ _ _ Hsave), bind_assoc. cbn [fst snd].
    destruct converted; rewrite ?bind_ret, ?bind_flash;
      (eexists _, new_filename, data; split; [reflexivity|]);
      split; by cases_of s.
Qed.

(** ** What a request does to the catalog *)

Lemma load_products_cases s :
  (products_file s = Unreadable /\ load_products s = Raised UnicodeDecodeError s)
  \/ (products_file s <> Unreadable
      /\ load_products s = Ok (products_of s) (reset_products s)).
Proof.
  destruct (products_file s) eqn:Hfile;
    try (right; split; [done|apply load_products_run; by rewrite Hfile]).
  left. split; [done|]. by apply load_products_unreadable.
Qed.

Lemma load_categories_cases s :
  (categories_file s = Unreadable /\ load_categories s = Raised UnicodeDecodeError s)
  \/ (categories_file s <> Unreadable
      /\ load_categories s = Ok (categories_of s) (reset_categories s)).
Proof.
  destruct (categories_file s) eqn:Hfile;
    try (right; split; [done|apply load_categories_run; by rewrite Hfile]).
  left. split; [done|]. by apply load_categories_unreadable.
Qed.

(** The first step of a handler: the load raises, or returns. *)
Ltac load_products_of s :=
  let Hload := fresh "Hload" in
  destruct (load_products_cases s) as [[? Hload]|[? Hload]];
  [rewrite (bind_Raised _ _ _ _ _ Hload)|rewrite (bind_Ok _ _ _ _ _ Hload)];
  clear Hload.

Ltac load_categories_of s :=
  let Hload := fresh "Hload" in
  destruct (load_categories_cases s) as [[? Hload]|[? Hload]];
  [rewrite (bind_Raised _ _ _ _ _ Hload)|rewrite (bind_Ok _ _ _ _ _ Hload)];
  clear Hload.

(** The catalog at the end of the run is that of [s]. *)
Ltac same_catalog s := by (left + idtac); cases_of s.

(** The run of [save_image] at the head of the goal raises, or returns. *)
Ltac save_image_of s file :=
  match goal with
  | |- context [bind (save_image file ?d ?b) _ ?st] =>
      let Hsave := fresh "Hsave" in
      destruct (save_image_outcome file d b st)
        as [([new_filename converted] & ? & Hsave)|(? & ? & Hsave)];
      [rewrite (bind_Ok _ _ _ _ _ Hsave)
      |rewrite (bind_Raised _ _ _ _ _ Hsave); same_catalog s];
      clear Hsave
  end.

(** The clean-up at the head of the goal raises, or returns. *)
Ltac remove_image_of s :=
  match goal with
  | |- context [bind (remove_image ?image) _ ?st] =>
      let Hclean := fresh "Hclean" in
      destruct (remove_image_cases image st) as [Hclean|[? Hclean]];
      [rewrite (bind_Ok _ _ _ _ _ Hclean)
      |rewrite (bind_Raised _ _ _ _ _ Hclean); same_catalog s];
      clear Hclean
  end.

Lemma admin_effect request s :
  catalog (final_state (admin request s)) = catalog s
  \/ exists k new_product,
       submitted_category request = Some k
       /\ Product.category_id new_product = Some k
       /\ is_next_id (product_ids s) (Product.id new_product)
       /\ catalog (final_state (admin request s))
          = (products_of s ++ [new_product], categories_of s).
Proof.
  unfold admin, submitted_category.
  destruct (is_authenticated s) eqn:Hauth;
    [rewrite login_required_authenticated by done
    |rewrite login_required_anonymous by done; same_catalog s].
  destruct (method request).
  { load_products_of s; [by left|].
    load_categories_of (reset_products s); same_catalog s. }
  load_products_of s; [by left|].
  rewrite (bind_Ok _ _ _ _ _ (next_id_following _ _)).
  destruct (uploaded_image request) as [file|]; [|same_catalog s].
  save_image_of s file.
  cbn [fst snd]. unfold form_get.
  destruct converted; rewrite ?bind_ret, ?bind_flash;
    (destruct (form request !! "name") as [name|];
       [rewrite bind_of_option_Some|same_catalog s]);
    (destruct (form request !! "description") as [description|];
       [rewrite bind_of_option_Some|same_catalog s]);
    (destruct (form request !! "price") as [price_field|];
       [rewrite bind_of_option_Some|same_catalog s]);
    (destruct (py_float price_field) as [price|];
       [rewrite bind_of_option_Some|same_catalog s]);
    (destruct (form request !! "category_id") as [category_field|];
       [rewrite bind_of_option_Some|same_catalog s]);
    (destruct (py_int category_field) as [category_id|];
       [rewrite bind_of_option_Some|same_catalog s]);
    right;
    (eexists category_id,
       (Product.Build (following_id (product_ids s)) name description price _
          (Some category_id) (Some 0%Z)));
    (split; [done|]); (split; [done|]); (split; [apply following_id_next|]);
    by cases_of s.
Qed.

Lemma edit_product_effect request product_id s :
  catalog (final_state (edit_product request product_id s)) = catalog s
  \/ exists k i p new_product,
       products_of s !! i = Some p
       /\ submitted_category request = Some k
       /\ Product.category_id new_product = Some k
       /\ Product.id new_product = Product.id p
       /\ Product.views new_product = Product.views p
       /\ catalog (final_state (edit_product request product_id s))
          = (<[i := new_product]> (products_of s), categories_of s).
Proof.
  unfold edit_product, submitted_category.
  destruct (is_authenticated s) eqn:Hauth;
    [rewrite login_required_authenticated by done
    |rewrite login_required_anonymous by done; same_catalog s].
  load_products_of s; [by left|].
  destruct (list_find _ _) as [[i p]|] eqn:Hfind; [|same_catalog s].
  apply list_find_Some in Hfind as (Hi & _ & _).
  destruct (method request).
  { load_categories_of (reset_products s); same_catalog s. }
  unfold form_get.
  (destruct (form request !! "name") as [name|];
     [rewrite bind_of_option_Some|same_catalog s]);
  (destruct (form request !! "description") as [description|];
     [rewrite bind_of_option_Some|same_catalog s]);
  (destruct (form request !! "price") as [price_field|];
     [rewrite bind_of_option_Some|same_catalog s]);
  (destruct (py_float price_field) as [price|];
     [rewrite bind_of_option_Some|same_catalog s]);
  (destruct (form request !! "category_id") as [category_field|];
     [rewrite bind_of_option_Some|same_catalog s]);
  (destruct (py_int category_field) as [category_id|];
     [rewrite bind_of_option_Some|same_catalog s]).
  destruct (uploaded_image request) as [file|].
  - rewrite bind_assoc.
    remove_image_of s.
    rewrite bind_assoc.
    save_image_of s file.
    rewrite bind_assoc.
    right. exists category_id, i, p,
      (Product.set_image (url_for_uploaded_file new_filename)
         (edited_product name description price category_id p)).
    cbn [fst snd].
    destruct converted; rewrite ?bind_ret, ?bind_flash;
      (split; [done|]); (split; [done|]); (split; [done|]); (split; [done|]);
      (split; [done|]); by cases_of s.
  - rewrite bind_ret. right.
    exists category_id, i, p, (edited_product name description price category_id p).
    (split; [done|]); (split; [done|]); (split; [done|]); (split; [done|]);
      (split; [done|]); by cases_of s.
Qed.

Lemma delete_product_effect product_id s :
  catalog (final_state (delete_product product_id s)) = catalog s
  \/ catalog (final_state (delete_product product_id s))
     = (filter (fun p => Product.id p ≠ product_id) (products_of s), categories_of s).
Proof.
  unfold delete_product.
  destruct (is_authenticated s) eqn:Hauth;
    [rewrite login_required_authenticated by done
    |rewrite login_required_anonymous by done; same_catalog s].
  load_products_of s; [by left|].
  destruct (list_find _ _) as [[i p]|].
  - remove_image_of s. right. by cases_of s.
  - rewrite bind_ret. right. by cases_of s.
Qed.

Lemma delete_category_effect category_id s :
  catalog (final_state (delete_category category_id s)) = catalog s
  \/ catalog (final_state (delete_category category_id s))
     = (filter (fun p => Product.category_id p ≠ Some category_id) (products_of s),
        filter (fun c => Category.id c ≠ category_id) (categories_of s))
  \/ (¬ Forall removable (cascade_paths category_id (products_of s))
      /\ catalog (final_state (delete_category category_id s))
         = (products_of s,
            filter (fun c => Category.id c ≠ category_id) (categories_of s))).
Proof.
  unfold delete_category.
  destruct (is_authenticated s) eqn:Hauth;
    [rewrite login_required_authenticated by done
    |rewrite login_required_anonymous by done; same_catalog s].
  load_categories_of s; [by left|].
  load_products_of (reset_categories s); [same_catalog s|].
  rewrite products_of_reset_categories.
  destruct (list_find _ _) as [[i c]|]; [|same_catalog s].
  remove_image_of s.
  destruct (decide (Forall removable (cascade_paths category_id (products_of s))))
    as [Hpaths|Hpaths].
  - right. left.
    unfold save_categories at 1. unfold bind at 1.
    rewrite (bind_Ok _ _ _ _ _ (delete_category_loop_run _ _ _ _ _ Hpaths)).
    cbn [fst snd app]. rewrite Z.add_0_l.
    destruct (filter (fun p => Product.category_id p = Some category_id)
                (products_of s)) as [|g gone] eqn:Hgone; simpl;
      unfold bind, flash, save_products, ret; simpl.
    + apply filter_none_id in Hgone. rewrite Hgone. by cases_of s.
    + by cases_of s.
  - right. right. split; [done|].
    unfold save_categories at 1. unfold bind at 1.
    match goal with |- context [bind (delete_category_loop ?a ?b ?c ?d) _ ?st] =>
      destruct (delete_category_loop_raises a b c d st Hpaths) as (e & m & Hloop) end.
    rewrite (bind_Raised _ _ _ _ _ Hloop). by cases_of s.
Qed.

Lemma record_view_effect product_id s :
  catalog (final_state (record_view product_id s)) = catalog s
  \/ exists i p,
       products_of s !! i = Some p
       /\ catalog (final_state (record_view product_id s))
          = (<[i := Product.set_views (views_key p + 1) p]> (products_of s),
             categories_of s).
Proof.
  unfold record_view.
  load_products_of s; [by left|].
  destruct (list_find _ _) as [[i p]|] eqn:Hfind; [|same_catalog s].
  apply list_find_Some in Hfind as (Hi & _ & _).
  right. exists i, p. split; [done|].
  unfold bind, save_products, ret, views_key. simpl.
  destruct p as [? ? ? ? ? ? [v|]]; by cases_of s.
Qed.

Lemma manage_categories_effect request s :
  catalog (final_state (manage_categories request s)) = catalog s
  \/ exists new_category,
       is_next_id (category_ids s) (Category.id new_category)
       /\ catalog (final_state (manage_categories request s))
          = (products_of s, categories_of s ++ [new_category]).
Proof.
  unfold manage_categories.
  destruct (is_authenticated s) eqn:Hauth;
    [rewrite login_required_authenticated by done
    |rewrite login_required_anonymous by done; same_catalog s].
  destruct (method request).
  { load_categories_of s; same_catalog s. }
  load_categories_of s; [by left|].
  rewrite (bind_Ok _ _ _ _ _ (next_id_following _ _)).
  destruct (uploaded_image request) as [file|]; [|same_catalog s].
  save_image_of s file.
  cbn [fst snd]. unfold form_get.
  destruct converted; rewrite ?bind_ret, ?bind_flash;
    (destruct (form request !! "name") as [name|];
       [rewrite bind_of_option_Some|same_catalog s]);
    right; (eexists (Category.Build (following_id (category_ids s)) name _));
    (split; [apply following_id_next|]);
    by cases_of s.
Qed.

Lemma edit_category_effect request category_id s :
  catalog (final_state (edit_category request category_id s)) = catalog s
  \/ exists i c new_category,
       categories_of s !! i = Some c
       /\ Category.id new_category = Category.id c
       /\ catalog (final_state (edit_category request category_id s))
          = (products_of s, <[i := new_category]> (categories_of s)).
Proof.
  unfold edit_category.
  destruct (is_authenticated s) eqn:Hauth;
    [rewrite login_required_authenticated by done
    |rewrite login_required_anonymous by done; same_catalog s].
  load_categories_of s; [by left|].
  destruct (list_find _ _) as [[i c]|] eqn:Hfind; [|same_catalog s].
  apply list_find_Some in Hfind as (Hi & _ & _).
  destruct (method request); [same_catalog s|].
  unfold form_get.
  destruct (form request !! "name") as [name|];
    [rewrite bind_of_option_Some|same_catalog s].
  destruct (uploaded_image request) as [file|].
  - rewrite bind_assoc.
    remove_image_of s.
    rewrite bind_assoc.
    save_image_of s file.
    rewrite bind_assoc.
    right. exists i, c,
      (Category.set_image (url_for_uploaded_file new_filename)
         (Category.set_name name c)).
    cbn [fst snd].
    destruct converted; rewrite ?bind_ret, ?bind_flash;
      (split; [done|]); (split; [done|]); by cases_of s.
  - rewrite bind_ret. right. exists i, c, (Category.set_name name c).
    (split; [done|]); (split; [done|]); by cases_of s.
Qed.

(** ** Referential consistency *)

Lemma references_hold_filter (P : Product.t -> Prop) `{!forall p, Decision (P p)}
      products categories :
  references_hold (products, categories) ->
  references_hold (filter P products, categories).
Proof.
  unfold references_hold. simpl. rewrite !Forall_forall.
  intros Hall p [_ Hp]%list_elem_of_filter. by apply Hall.
Qed.

(** C8, as amended: from a state in which every product references an
    existing category, a run of [delete_product], whether it returns or
    raises, ends in such a state; so does a run of [delete_category] when
    the image paths of the products of the category are paths that
    [os.remove] accepts, and so does a run of the product-creation handler
    [admin] or of [edit_product], provided that the [category_id] that the
    form submits, if it parses, is the id of an existing category. *)
Theorem references_preserved s :
  references_hold (catalog s) ->
  (forall product_id,
      references_hold (catalog (final_state (delete_product product_id s))))
  /\ (forall category_id,
        Forall removable (cascade_paths category_id (products_of s)) ->
        references_hold (catalog (final_state (delete_category category_id s))))
  /\ (forall request,
        match submitted_category request with
        | Some k => k ∈ Category.id <$> categories_of s
        | None => True
        end ->
        references_hold (catalog (final_state (admin request s))))
  /\ (forall request product_id,
        match submitted_category request with
        | Some k => k ∈ Category.id <$> categories_of s
        | None => True
        end ->
        references_hold
          (catalog (final_state (edit_product request product_id s)))).
Proof.
  intros Hinv. split; [|split; [|split]].
  - intros product_id.
    destruct (delete_product_effect product_id s) as [->| ->]; [done|].
    by apply references_hold_filter.
  - intros category_id Hpaths.
    destruct (delete_category_effect category_id s) as [->|[->|[Hbad _]]];
      [done| |done].
    unfold references_hold in *. simpl in *. rewrite Forall_forall in *.
    intros p [Hp Hin]%list_elem_of_filter.
    destruct (Hinv p Hin) as (k & Hk & Hmem). exists k. split; [done|].
    apply list_elem_of_fmap in Hmem as (c & -> & Hc).
    apply list_elem_of_fmap. exists c. split; [done|].
    apply list_elem_of_filter. split; [|done]. congruence.
  - intros request Hsub.
    destruct (admin_effect request s) as [->|(k & new & Hk & Hnew & _ & ->)];
      [done|].
    rewrite Hk in Hsub. unfold references_hold in *. simpl in *.
    apply Forall_app. split; [done|]. repeat constructor. by exists k.
  - intros request product_id Hsub.
    destruct (edit_product_effect request product_id s)
      as [->|(k & i & p & new & _ & Hk & Hnew & _ & _ & ->)]; [done|].
    rewrite Hk in Hsub. unfold references_hold in *. simpl in *.
    apply Forall_insert; [done|]. by exists k.
Qed.

(** ** The login gate *)

(** X1: an anonymous request to any of the admin handlers, whatever its
    method, form and files, is answered by the redirection to the login
    page; the state gains the login message and nothing else, so that no
    collection and no file changes. *)
Theorem anonymous_requests_are_turned_away request product_id category_id s :
  is_authenticated s = false ->
  admin request s = turned_away s
  /\ edit_product request product_id s = turned_away s
  /\ delete_product product_id s = turned_away s
  /\ manage_categories request s = turned_away s
  /\ edit_category request category_id s = turned_away s
  /\ delete_category category_id s = turned_away s
  /\ logout s = turned_away s.
Proof.
  intros Hanon. unfold turned_away.
  repeat split; by apply login_required_anonymous.
Qed.

(** ** The file that [save_image] writes *)

Lemma write_error_kinds path e :
  write_error path = Some e ->
  e = FileNotFoundError \/ e = IsADirectoryError \/ e = OSError.
Proof.
  unfold write_error, path_error.
  case_bool_decide; [intros [= <-]; by left|].
  destruct (names_directory path); [intros [= <-]; by right; left|].
  destruct (NAME_MAX <? _)%nat; [intros [= <-]; by right; right|done].
Qed.

(** X2: [save_image] either returns the name of a file of the output
    folder that it has written, or raises the error of opening the fallback
    file for writing.  The name that it returns is the basename followed by
    [.webp] when the flag is [True]; otherwise it is the basename followed
    by the extension of the upload, and the file holds the bytes of the
    upload.  No other file changes, except that a WebP file of the basename
    that was there may have been truncated by a failed conversion. *)
Theorem save_image_writes_returned_name file_storage output_folder basename s :
  match save_image file_storage output_folder basename s with
  | Ok (new_filename, converted) s' =>
      exists data,
        fs s' !! os_path_join output_folder new_filename = Some data
        /\ if converted then new_filename = basename +:+ ".webp"
           else new_filename = basename +:+ original_extension file_storage
                /\ data = stream file_storage
  | Raised e s' =>
      write_error (os_path_join output_folder
                     (basename +:+ original_extension file_storage)) = Some e
  end
  /\ forall path,
       path ≠ os_path_join output_folder (basename +:+ ".webp") ->
       path ≠ os_path_join output_folder
                (basename +:+ original_extension file_storage) ->
       fs (final_state (save_image file_storage output_folder basename s)) !! path
       = fs s !! path.
Proof.
  destruct (save_image_cases file_storage output_folder basename s)
    as [(data & _ & ->)|(m & Hframe & _ & [[_ ->]|(e & He & ->)])]; simpl.
  - split; [exists data; by rewrite lookup_insert_eq|].
    intros path Hne _. by rewrite lookup_insert_ne.
  - split; [exists (stream file_storage); by rewrite lookup_insert_eq|].
    intros path Hne Hne'. rewrite lookup_insert_ne by done. by apply Hframe.
  - split; [done|]. intros path Hne _. by apply Hframe.
Qed.

(** ** Creation requests that store nothing *)

(** X5: for an authenticated admin and a collection file that can be read,
    a creation request without an image part, or with an image part whose
    file name is empty, creates nothing: [admin] and [manage_categories]
    flash that the image is mandatory and redirect to the URL of the
    request, and neither a collection nor a file changes. *)
Theorem creation_without_image_is_refused request s :
  is_authenticated s = true ->
  products_file s <> Unreadable ->
  categories_file s <> Unreadable ->
  method request = POST ->
  uploaded_image request = None ->
  admin request s
  = Ok (Redirect (url request))
       (add_flash ("La imagen es obligatoria.", "message") (reset_products s))
  /\ manage_categories request s
     = Ok (Redirect (url request))
          (add_flash ("La imagen de la categoría es obligatoria.", "message")
             (reset_categories s))
  /\ catalog (final_state (admin request s)) = catalog s
  /\ catalog (final_state (manage_categories request s)) = catalog s
  /\ fs (final_state (admin request s)) = fs s
  /\ fs (final_state (manage_categories request s)) = fs s.
Proof.
  intros Hauth Hproducts Hcategories Hpost Hnone.
  assert (Hadmin : admin request s
    = Ok (Redirect (url request))
         (add_flash ("La imagen es obligatoria.", "message") (reset_products s))).
  { unfold admin. rewrite login_required_authenticated by done. rewrite Hpost.
    rewrite (bind_Ok _ _ _ _ _ (load_products_run s Hproducts)).
    by rewrite (bind_Ok _ _ _ _ _ (next_id_following _ _)), Hnone. }
  assert (Hcat : manage_categories request s
    = Ok (Redirect (url request))
         (add_flash ("La imagen de la categoría es obligatoria.", "message")
            (reset_categories s))).
  { unfold manage_categories. rewrite login_required_authenticated by done.
    rewrite Hpost.
    rewrite (bind_Ok _ _ _ _ _ (load_categories_run s Hcategories)).
    by rewrite (bind_Ok _ _ _ _ _ (next_id_following _ _)), Hnone. }
  rewrite Hadmin, Hcat.
  repeat split; by cases_of s.
Qed.

(** ** Requests that raise *)

(** [save_image] raises only the error of opening the fallback file. *)
Lemma save_image_raises file_storage output_folder basename s e s' :
  save_image file_storage output_folder basename s = Raised e s' ->
  write_error (os_path_join output_folder
                 (basename +:+ original_extension file_storage)) = Some e
  /\ exists m, s' = set_fs m s.
Proof.
  destruct (save_image_cases file_storage output_folder basename s)
    as [(data & _ & ->)|(m & _ & _ & [[_ ->]|(e0 & He & ->)])]; try done.
  intros [= <- <-]. split; [done|by exists m].
Qed.


(** X4: the edit handlers read the whole form before they touch a file.
    Whenever [edit_product] or [edit_category] raises, nothing has been
    stored and nothing has been flashed, and the exception is one of three
    kinds: the [UnicodeDecodeError] of a collection file that cannot be
    read, or the error of a missing form field or of a field that does not
    parse, in both of which no file has been removed or written; or an error
    of the file system, raised with an uploaded image while the old image
    was removed or the new one stored. *)
Theorem failed_edit_stores_nothing request id s e s' :
  edit_product request id s = Raised e s'
  \/ edit_category request id s = Raised e s' ->
  catalog s' = catalog s
  /\ flashes s' = flashes s
  /\ ((e = UnicodeDecodeError /\ fs s' = fs s)
      \/ ((e = BadRequestKeyError \/ e = ValueError)
          /\ method request = POST /\ fs s' = fs s)
      \/ ((e = FileNotFoundError \/ e = IsADirectoryError \/ e = OSError)
          /\ method request = POST
          /\ exists file, uploaded_image request = Some file)).
Proof.
  intros [Hraise|Hraise]; revert Hraise.
  - unfold edit_product, login_required.
    destruct (is_authenticated s); [|done].
    load_products_of s;
      [intros [= <- <-]; split; [done|]; split; [done|]; by left|].
    destruct (list_find _ _) as [[i p]|]; [|done].
    destruct (method request).
    { load_categories_of (reset_products s); [|done].
      intros [= <- <-]. split; [by cases_of s|]. split; [by cases_of s|].
      left. split; [done|by cases_of s]. }
    unfold form_get.
    (destruct (form request !! "name") as [name|];
       [rewrite bind_of_option_Some|]);
    try (destruct (form request !! "description") as [description|];
       [rewrite bind_of_option_Some|]);
    try (destruct (form request !! "price") as [price_field|];
       [rewrite bind_of_option_Some|]);
    try (destruct (py_float price_field) as [price|];
       [rewrite bind_of_option_Some|]);
    try (destruct (form request !! "category_id") as [category_field|];
       [rewrite bind_of_option_Some|]);
    try (destruct (py_int category_field) as [category_id|];
       [rewrite bind_of_option_Some|]);
    try (intros [= <- <-]; split; [by cases_of s|]; split; [by cases_of s|];
         right; left; split; [by (left + right)|]; split; [done|by cases_of s]).
    destruct (uploaded_image request) as [file|]; [|by rewrite bind_ret].
    rewrite bind_assoc.
    match goal with |- context [bind (remove_image ?image) _ ?st] =>
      destruct (decide (Forall removable (image_paths image))) as [Hok|Hbad];
      [rewrite (bind_Ok _ _ _ _ _ (remove_image_run image st Hok))
      |destruct (remove_image_raises image st Hbad) as (e0 & Hclean & He0);
       rewrite (bind_Raised _ _ _ _ _ Hclean)] end.
    2:{ intros [= <- <-]. split; [by cases_of s|]. split; [by cases_of s|].
        right; right. split; [by destruct He0; auto|]. split; [done|by exists file]. }
    rewrite bind_assoc.
    match goal with |- context [bind (save_image file ?d ?b) _ ?st] =>
      destruct (save_image_outcome file d b st)
        as [([new_filename converted] & m & Hsave)|(e0 & m & Hsave)] end.
    + rewrite (bind_Ok _ _ _ _ _ Hsave), bind_assoc. cbn [fst snd].
      by destruct converted; rewrite ?bind_ret, ?bind_flash.
    + rewrite (bind_Raised _ _ _ _ _ Hsave). intros [= <- <-].
      destruct (save_image_raises _ _ _ _ _ _ Hsave) as [Hpath _].
      apply write_error_kinds in Hpath.
      split; [by cases_of s|]. split; [by cases_of s|].
      right; right. split; [done|]. split; [done|by exists file].
  - unfold edit_category, login_required.
    destruct (is_authenticated s); [|done].
    load_categories_of s;
      [intros [= <- <-]; split; [done|]; split; [done|]; by left|].
    destruct (list_find _ _) as [[i c]|]; [|done].
    destruct (method request); [done|].
    unfold form_get.
    destruct (form request !! "name") as [name|];
      [rewrite bind_of_option_Some
      |intros [= <- <-]; split; [by cases_of s|]; split; [by cases_of s|];
       right; left; split; [by left|]; split; [done|by cases_of s]].
    destruct (uploaded_image request) as [file|]; [|by rewrite bind_ret].
    rewrite bind_assoc.
    match goal with |- context [bind (remove_image ?image) _ ?st] =>
      destruct (decide (Forall removable (image_paths image))) as [Hok|Hbad];
      [rewrite (bind_Ok _ _ _ _ _ (remove_image_run image st Hok))
      |destruct (remove_image_raises image st Hbad) as (e0 & Hclean & He0);
       rewrite (bind_Raised _ _ _ _ _ Hclean)] end.
    2:{ intros [= <- <-]. split; [by cases_of s|]. split; [by cases_of s|].
        right; right. split; [by destruct He0; auto|]. split; [done|by exists file]. }
    rewrite bind_assoc.
    match goal with |- context [bind (save_image file ?d ?b) _ ?st] =>
      destruct (save_image_outcome file d b st)
        as [([new_filename converted] & m & Hsave)|(e0 & m & Hsave)] end.
    + rewrite (bind_Ok _ _ _ _ _ Hsave), bind_assoc. cbn [fst snd].
      by destruct converted; rewrite ?bind_ret, ?bind_flash.
    + rewrite (bind_Raised _ _ _ _ _ Hsave). intros [= <- <-].
      destruct (save_image_raises _ _ _ _ _ _ Hsave) as [Hpath _].
      apply write_error_kinds in Hpath.
      split; [by cases_of s|]. split; [by cases_of s|].
      right; right. split; [done|]. split; [done|by exists file].
Qed.

(** ** Unique ids *)

Lemma next_id_fresh ids n : is_next_id ids n -> n ∉ ids.
Proof.
  intros [[-> _]|(m & _ & Hall & ->)] Hin; [by apply elem_of_nil in Hin|].
  rewrite Forall_forall in Hall. specialize (Hall _ Hin). lia.
Qed.

Lemma ids_insert_same {A} (f : A -> Z) (l : list A) i x y :
  l !! i = Some x -> f y = f x -> f <$> <[i := y]> l = f <$> l.
Proof.
  intros Hi Hf. rewrite list_fmap_insert, Hf.
  apply list_insert_id. by rewrite list_lookup_fmap, Hi.
Qed.

Lemma NoDup_ids_filter {A} (f : A -> Z) (P : A -> Prop) `{!forall x, Decision (P x)}
      (l : list A) :
  NoDup (f <$> l) -> NoDup (f <$> filter P l).
Proof.
  intros Hl. eapply sublist_NoDup; [exact Hl|]. apply fmap_sublist, sublist_filter.
Qed.

Lemma NoDup_ids_next ids n : NoDup ids -> is_next_id ids n -> NoDup (ids ++ [n]).
Proof.
  intros Hids Hnext. apply NoDup_app. split; [done|]. split.
  - intros x Hx [Heq|Hnil%elem_of_nil]%elem_of_cons; [|done].
    subst x. by apply (next_id_fresh ids n).
  - apply NoDup_singleton.
Qed.

(** X6: the ids of the products stay pairwise distinct.  From a state in
    which they are, a run of any handler that stores products, whether it
    returns or raises, ends in such a state: a creation appends the id that
    follows the greatest one, an edit and a view keep the ids, and the
    deletions remove entries. *)
Theorem product_ids_stay_unique s :
  NoDup (product_ids s) ->
  (forall request, NoDup (product_ids (final_state (admin request s))))
  /\ (forall request product_id,
        NoDup (product_ids (final_state (edit_product request product_id s))))
  /\ (forall product_id,
        NoDup (product_ids (final_state (delete_product product_id s))))
  /\ (forall category_id,
        NoDup (product_ids (final_state (delete_category category_id s))))
  /\ (forall product_id,
        NoDup (product_ids (final_state (record_view product_id s)))).
Proof.
  intros Hids.
  assert (Hcat : forall s', product_ids s' = Product.id <$> (catalog s').1) by done.
  split; [|split; [|split; [|split]]].
  - intros request. rewrite Hcat.
    destruct (admin_effect request s) as [->|(k & new & _ & _ & Hnext & ->)]; [done|].
    simpl. rewrite fmap_app. by apply NoDup_ids_next.
  - intros request product_id. rewrite Hcat.
    destruct (edit_product_effect request product_id s)
      as [->|(k & i & p & new & Hi & _ & _ & Hid & _ & ->)]; [done|].
    simpl. by rewrite (ids_insert_same _ _ _ p).
  - intros product_id. rewrite Hcat.
    destruct (delete_product_effect product_id s) as [->| ->]; [done|].
    by apply NoDup_ids_filter.
  - intros category_id. rewrite Hcat.
    destruct (delete_category_effect category_id s) as [->|[->|[_ ->]]];
      [done|by apply NoDup_ids_filter|simpl].
    first [done|by apply NoDup_ids_filter].
  - intros product_id. rewrite Hcat.
    destruct (record_view_effect product_id s) as [->|(i & p & Hi & ->)]; [done|].
    simpl. by rewrite (ids_insert_same _ _ _ p).
Qed.

(** X7: the ids of the categories stay pairwise distinct through every
    handler that stores categories: [manage_categories] appends the id that
    follows the greatest one, [edit_category] keeps the ids and
    [delete_category] removes entries. *)
Theorem category_ids_stay_unique s :
  NoDup (category_ids s) ->
  (forall request, NoDup (category_ids (final_state (manage_categories request s))))
  /\ (forall request category_id,
        NoDup (category_ids (final_state (edit_category request category_id s))))
  /\ (forall category_id,
        NoDup (category_ids (final_state (delete_category category_id s)))).
Proof.
  intros Hids.
  assert (Hcat : forall s', category_ids s' = Category.id <$> (catalog s').2) by done.
  split; [|split].
  - intros request. rewrite Hcat.
    destruct (manage_categories_effect request s) as [->|(new & Hnext & ->)]; [done|].
    simpl. rewrite fmap_app. by apply NoDup_ids_next.
  - intros request category_id. rewrite Hcat.
    destruct (edit_category_effect request category_id s)
      as [->|(i & c & new & Hi & Hid & ->)]; [done|].
    simpl. by rewrite (ids_insert_same _ _ _ c).
  - intros category_id. rewrite Hcat.
    destruct (delete_category_effect category_id s) as [->|[->|[_ ->]]];
      [done|by apply NoDup_ids_filter|simpl].
    first [done|by apply NoDup_ids_filter].
Qed.

(** X8: the handlers that store categories without deleting any, and the
    view counter, keep the references of the products: from a state in which
    every product references an existing category, a run of
    [manage_categories], [edit_category] or [record_view], whether it
    returns or raises, ends in such a state. *)
Theorem references_survive_category_edits s :
  references_hold (catalog s) ->
  (forall request,
      references_hold (catalog (final_state (manage_categories request s))))
  /\ (forall request category_id,
        references_hold (catalog (final_state (edit_category request category_id s))))
  /\ (forall product_id,
        references_hold (catalog (final_state (record_view product_id s)))).
Proof.
  intros Hinv. split; [|split].
  - intros request.
    destruct (manage_categories_effect request s) as [->|(new & _ & ->)]; [done|].
    unfold references_hold in *. simpl in *.
    eapply Forall_impl; [exact Hinv|]. simpl. intros p (k & Hk & Hin).
    exists k. split; [done|]. rewrite fmap_app. apply elem_of_app. by left.
  - intros request category_id.
    destruct (edit_category_effect request category_id s)
      as [->|(i & c & new & Hi & Hid & ->)]; [done|].
    unfold references_hold in *. simpl in *.
    by rewrite (ids_insert_same _ _ _ c).
  - intros product_id.
    destruct (record_view_effect product_id s) as [->|(i & p & Hi & ->)]; [done|].
    unfold references_hold in *. simpl in *.
    apply Forall_insert; [done|].
    rewrite Forall_forall in Hinv. apply (Hinv p).
    apply list_elem_of_lookup. by exists i.
Qed.

(** ** Ties between featured products *)

Lemma insert_reverse_stable {A} (key : A -> Z) k x (l : list A) :
  filter (fun y => key y = k) (insert_reverse key x l)
  = filter (fun y => key y = k) (x :: l).
Proof.
  induction l as [|y l IH]; simpl; [done|].
  destruct (key x <? key y)%Z eqn:E; [|done].
  apply Z.ltb_lt in E.
  rewrite (filter_cons _ y), IH, !filter_cons.
  repeat case_decide; (done || lia).
Qed.

Lemma sorted_reverse_stable {A} (key : A -> Z) k (l : list A) :
  filter (fun y => key y = k) (sorted_reverse key l) = filter (fun y => key y = k) l.
Proof.
  induction l as [|x l IH]; simpl; [done|].
  by rewrite insert_reverse_stable, !filter_cons, IH.
Qed.

(** X9: the sort of the index page is stable.  When the two collection
    files can be read, the featured products that have a given number of
    views are, in the same order, the first of the products of the
    collection that have a views field and that number of views: ties are
    decided by the position in the collection. *)
Theorem index_ties_keep_order s k :
  products_file s <> Unreadable ->
  categories_file s <> Unreadable ->
  exists featured,
    index s = Ok (render_index (products_of s) (categories_of s) featured)
                 (reset_categories (reset_products s))
    /\ filter (fun p => views_key p = k) featured
       `prefix_of` filter (fun p => views_key p = k)
                     (filter (fun p => is_Some (Product.views p)) (products_of s)).
Proof.
  intros Hproducts Hcategories.
  set (viewed_products := filter (fun p => is_Some (Product.views p)) (products_of s)).
  set (ranked := sorted_reverse views_key viewed_products).
  exists (take 4 ranked). split.
  - unfold index.
    rewrite (bind_Ok _ _ _ _ _ (load_products_run s Hproducts)).
    by rewrite (bind_Ok _ _ _ _ _ (load_categories_after_products s Hcategories)).
  - rewrite <- (sorted_reverse_stable views_key k viewed_products).
    fold ranked.
    assert (Hsplit : filter (fun p => views_key p = k) ranked
                     = filter (fun p => views_key p = k) (take 4 ranked)
                       ++ filter (fun p => views_key p = k) (drop 4 ranked))
      by by rewrite <- filter_app, take_drop.
    rewrite Hsplit. by apply prefix_app_r.
Qed.

(** ** Sessions *)

(** X10: a login form logs in exactly with the credentials of the
    environment.  For an anonymous visitor, a POST with a user name and a
    password redirects to the admin page and opens the session when both
    are those of [ADMIN_USER]; otherwise it renders the login page again
    with the error message and the visitor stays anonymous.  Either way no
    collection and no file changes. *)
Theorem login_checks_credentials request s user pass :
  is_authenticated s = false ->
  method request = POST ->
  form request !! "username" = Some user ->
  form request !! "password" = Some pass ->
  exists result s',
    login request s = Ok result s'
    /\ (is_authenticated s' = true
        <-> user = username ADMIN_USER /\ pass = password ADMIN_USER)
    /\ (result = Response (Redirect "admin")
        <-> user = username ADMIN_USER /\ pass = password ADMIN_USER)
    /\ (result = render_login
        <-> ~ (user = username ADMIN_USER /\ pass = password ADMIN_USER))
    /\ products_file s' = products_file s
    /\ categories_file s' = categories_file s
    /\ fs s' = fs s.
Proof.
  intros Hanon Hpost Huser Hpass.
  unfold login. rewrite Hanon, Hpost. unfold form_get.
  rewrite Huser, bind_of_option_Some, Hpass, bind_of_option_Some.
  destruct (decide (user = username ADMIN_USER)) as [->|Hu].
  - destruct (decide (pass = password ADMIN_USER)) as [->|Hp].
    + rewrite !bool_decide_eq_true_2 by done. simpl.
      eexists _, _. split; [reflexivity|]. simpl.
      unfold load_user.
      rewrite (bool_decide_eq_true_2 (username ADMIN_USER = _)) by done.
      rewrite bool_decide_eq_true_2 by by eexists.
      repeat split; try done; try congruence;
        try (intros [? ?]; congruence); try (intros _ [? ?]; congruence);
        try (by intros []).
    + rewrite bool_decide_eq_true_2, (bool_decide_eq_false_2 (pass = _)) by done.
      simpl. eexists _, _. split; [reflexivity|]. simpl. rewrite Hanon.
      repeat split; try done; try congruence;
        try (intros [? ?]; congruence); try (intros _ [? ?]; congruence);
        try (by intros []).
  - rewrite (bool_decide_eq_false_2 (user = _)) by done.
    simpl. eexists _, _. split; [reflexivity|]. simpl. rewrite Hanon.
    repeat split; try done; try congruence;
        try (intros [? ?]; congruence); try (intros _ [? ?]; congruence);
        try (by intros []).
Qed.

(** X11: [logout] ends the session.  For an authenticated admin it
    redirects to the index page and changes no collection and no file, and
    the admin handlers then turn the next request away. *)
Theorem logout_ends_the_session request product_id category_id s :
  is_authenticated s = true ->
  exists s',
    logout s = Ok (Redirect "index") s'
    /\ is_authenticated s' = false
    /\ products_file s' = products_file s
    /\ categories_file s' = categories_file s
    /\ fs s' = fs s
    /\ admin request s' = turned_away s'
    /\ edit_product request product_id s' = turned_away s'
    /\ delete_product product_id s' = turned_away s'
    /\ manage_categories request s' = turned_away s'
    /\ edit_category request category_id s' = turned_away s'
    /\ delete_category category_id s' = turned_away s'.
Proof.
  intros Hauth. unfold logout. rewrite login_required_authenticated by done.
  eexists. split; [reflexivity|]. simpl.
  repeat split; by apply login_required_anonymous.
Qed.

(** ** The page of a category *)

(** X12: when the two collection files can be read, [show_category]
    renders for every id, also for one that no category has: the category
    of the page is the first one of the collection with that id (no
    category before it has the id), or none when there is none, and the
    products of the page are the products of the collection whose
    [category_id] is that id, in their order, whether or not the category
    exists. *)
Theorem show_category_lists_its_products category_id s :
  products_file s <> Unreadable ->
  categories_file s <> Unreadable ->
  exists products category,
    show_category category_id s
    = Ok (render_category_products products category (categories_of s))
         (reset_categories (reset_products s))
    /\ products
       = filter (fun p => Product.category_id p = Some category_id) (products_of s)
    /\ match category with
       | Some c =>
           exists i,
             categories_of s !! i = Some c
             /\ Category.id c = category_id
             /\ forall j earlier,
                  categories_of s !! j = Some earlier -> (j < i)%nat ->
                  Category.id earlier ≠ category_id
       | None => Forall (fun c => Category.id c ≠ category_id) (categories_of s)
       end.
Proof.
  intros Hproducts Hcategories.
  eexists _, _. split; [|split; [reflexivity|]].
  - unfold show_category.
    rewrite (bind_Ok _ _ _ _ _ (load_products_run s Hproducts)).
    by rewrite (bind_Ok _ _ _ _ _ (load_categories_after_products s Hcategories)).
  - destruct (list_find _ _) as [[i c]|] eqn:Hfind; simpl.
    + apply list_find_Some in Hfind as (Hi & Hid & Hbefore).
      exists i. split; [done|]. split; [done|]. exact Hbefore.
    + by apply list_find_None in Hfind.
Qed.

(** ** Views in a row *)

Lemma list_find_insert_same {A} (P : A -> Prop) `{!forall x, Decision (P x)}
      (l : list A) i x y :
  list_find P l = Some (i, x) -> P y -> list_find P (<[i := y]> l) = Some (i, y).
Proof.
  intros (Hi & _ & Hbefore)%list_find_Some Hy. apply list_find_Some.
  split; [|split; [done|]].
  - apply list_lookup_insert_eq. by eapply lookup_lt_Some.
  - intros j z Hj Hlt. rewrite list_lookup_insert_ne in Hj by lia.
    by eapply Hbefore.
Qed.

(** A collection in which something is found has been decoded. *)
Lemma found_is_readable product_id s i p :
  list_find (fun p => Product.id p = product_id) (products_of s) = Some (i, p) ->
  products_file s <> Unreadable.
Proof.
  unfold products_of. intros Hfind Hfile. by rewrite Hfile in Hfind.
Qed.

Lemma record_view_found product_id s i p :
  list_find (fun p => Product.id p = product_id) (products_of s) = Some (i, p) ->
  record_view product_id s
  = Ok (jsonify true None 200)
       (set_products_file
          (Decoded (<[i := Product.set_views (views_key p + 1) p]> (products_of s))) s).
Proof.
  intros Hfind. unfold record_view.
  rewrite (bind_Ok _ _ _ _ _ (load_products_run s (found_is_readable _ _ _ _ Hfind))), Hfind.
  unfold bind, save_products, ret, views_key.
  destruct p as [? ? ? ? ? ? [v|]]; by cases_of s.
Qed.

(** X13: views add up.  When a product has the given id, [n + 1] calls of
    [record_view] in a row leave the first such product with [n + 1] more
    views than it had (counting from 0 when it had no views field), and
    change nothing else: the other products, the categories and the files
    are as they were. *)
Theorem repeated_views_add_up product_id s i p n :
  list_find (fun p => Product.id p = product_id) (products_of s) = Some (i, p) ->
  viewed (S n) product_id s
  = set_products_file
      (Decoded (<[i := Product.set_views (views_key p + Z.of_nat (S n)) p]>
                  (products_of s))) s.
Proof.
  intros Hfind. induction n as [|n IH].
  - simpl viewed. by rewrite (record_view_found _ _ i p).
  - change (viewed (S (S n)) product_id s)
      with (final_state (record_view product_id (viewed (S n) product_id s))).
    rewrite IH.
    assert (Hid : Product.id p = product_id)
      by by apply list_find_Some in Hfind as (_ & ? & _).
    erewrite record_view_found; last first.
    { unfold products_of at 1. simpl.
      by apply (list_find_insert_same _ _ _ p). }
    simpl. unfold products_of at 1. simpl.
    rewrite list_insert_insert_eq.
    replace (views_key p + Z.of_nat (S (S n)))%Z
      with (views_key p + Z.of_nat (S n) + 1)%Z by lia.
    by cases_of s; destruct p.
Qed.

(** ** Ids that nothing has *)

(** X15: for an authenticated admin and collection files that can be read,
    [edit_product] and [edit_category] on an id that no entry has flash
    that the entry was not found and redirect to the listing, for a GET as
    for a POST and whatever the form and the files of the request: no form
    field is read, nothing is stored and no file changes. *)
Theorem edit_of_unknown_id_is_refused request entry_id s :
  is_authenticated s = true ->
  products_file s <> Unreadable ->
  categories_file s <> Unreadable ->
  Forall (fun p => Product.id p ≠ entry_id) (products_of s) ->
  Forall (fun c => Category.id c ≠ entry_id) (categories_of s) ->
  edit_product request entry_id s
  = Ok (Redirect "admin")
       (add_flash ("Producto no encontrado.", "message") (reset_products s))
  /\ edit_category request entry_id s
     = Ok (Redirect "manage_categories")
          (add_flash ("Categoría no encontrada.", "message") (reset_categories s)).
Proof.
  intros Hauth Hpfile Hcfile Hproducts Hcategories.
  assert (Hp : list_find (fun p => Product.id p = entry_id) (products_of s) = None)
    by by apply list_find_None.
  assert (Hc : list_find (fun c => Category.id c = entry_id) (categories_of s) = None)
    by by apply list_find_None.
  split.
  - unfold edit_product. rewrite login_required_authenticated by done.
    rewrite (bind_Ok _ _ _ _ _ (load_products_run s Hpfile)). by rewrite Hp.
  - unfold edit_category. rewrite login_required_authenticated by done.
    rewrite (bind_Ok _ _ _ _ _ (load_categories_run s Hcfile)). by rewrite Hc.
Qed.

(** X16: for an authenticated admin and collection files that can be read,
    [delete_category] on an id that no category has deletes nothing, not
    even the products whose [category_id] is that id: it flashes a warning
    and redirects, the two collections and the files being as they were. *)
Theorem delete_of_unknown_category_keeps_products category_id s :
  is_authenticated s = true ->
  products_file s <> Unreadable ->
  categories_file s <> Unreadable ->
  Forall (fun c => Category.id c ≠ category_id) (categories_of s) ->
  exists s',
    delete_category category_id s = Ok (Redirect "manage_categories") s'
    /\ flashes s' = flashes s ++ [("Categoría no encontrada.", "warning")]
    /\ catalog s' = catalog s
    /\ fs s' = fs s.
Proof.
  intros Hauth Hpfile Hcfile Hnone.
  assert (Hc : list_find (fun c => Category.id c = category_id) (categories_of s)
               = None) by by apply list_find_None.
  eexists. split; [by apply delete_category_not_found|].
  by cases_of s.
Qed.

(** ** Creating a product and deleting it again *)





End App.

(** ** The properties on the small instance *)

Import Fixture.

Local Abbreviation convert_to_webp_ :=
  (convert_to_webp Image Image_open Image_mode Image_convert Image_save
                   Image_save_leftover).
Local Abbreviation save_image_ :=
  (save_image secure_filename Image Image_open Image_mode Image_convert Image_save
              Image_save_leftover).
Local Abbreviation admin_ :=
  (admin DATA_DIR secure_filename url_for_uploaded_file py_float py_int
         Image Image_open Image_mode Image_convert Image_save Image_save_leftover).
Local Abbreviation edit_product_ :=
  (edit_product DATA_DIR secure_filename url_for_uploaded_file py_float py_int
                Image Image_open Image_mode Image_convert Image_save
                Image_save_leftover).
Local Abbreviation manage_categories_ :=
  (manage_categories DATA_DIR secure_filename url_for_uploaded_file
                     Image Image_open Image_mode Image_convert Image_save
                     Image_save_leftover).
Local Abbreviation edit_category_ :=
  (edit_category DATA_DIR secure_filename url_for_uploaded_file
                 Image Image_open Image_mode Image_convert Image_save
                 Image_save_leftover).
Local Abbreviation delete_product_ := (delete_product DATA_DIR secure_filename).
Local Abbreviation delete_category_ := (delete_category DATA_DIR secure_filename).
Local Abbreviation image_path_ := (image_path DATA_DIR secure_filename).

(** The two collection files of the small catalog can be read. *)
Lemma shop_products_readable : products_file shop <> Unreadable.
Proof. discriminate. Qed.

Lemma shop_categories_readable : categories_file shop <> Unreadable.
Proof. discriminate. Qed.

Lemma delete_category_cascades_witness :
  is_authenticated shop = true
  /\ list_find (fun c => Category.id c = 1%Z) (categories_of shop) = Some (0, rings)
  /\ Forall removable
            ["instance/uploads/category_1.webp"; "instance/uploads/product_1.webp"]
  /\ exists s',
       delete_category_ 1 shop = Ok (Redirect "manage_categories") s'
       /\ categories_file s' = Decoded [necklaces]
       /\ products_of s' = [necklace]
       /\ fs s' !! "instance/uploads/category_1.webp" = None
       /\ fs s' !! "instance/uploads/product_2.jpg"
          = Some [Byte.x00; Byte.x03; Byte.x03].
Proof.
  assert (Hpaths : Forall removable
    ["instance/uploads/category_1.webp"; "instance/uploads/product_1.webp"])
    by (repeat constructor).
  split; [reflexivity|]. split; [reflexivity|]. split; [exact Hpaths|].
  destruct (delete_category_cascades DATA_DIR secure_filename 1 shop 0 rings
              eq_refl shop_products_readable shop_categories_readable eq_refl Hpaths)
    as (s' & Hrun & Hcats & Hprods & Hfs).
  exists s'. split; [exact Hrun|]. split; [exact Hcats|]. split; [exact Hprods|].
  split; rewrite Hfs; reflexivity.
Defined.


Lemma save_image_converts_witness :
  (forall i m i', Image_convert i m = Some i' -> Image_size i' = Image_size i)
  /\ original_extension secure_filename photo ∈ supported_formats_for_conversion
  /\ (exists s',
        convert_to_webp_ photo
          (os_path_join "instance/uploads" ("product_3" +:+ ".webp")) shop
        = Ok tt s')
  /\ exists image image' data,
       Image_open (stream photo) = Some image
       /\ (if bool_decide (Image_mode image ∈ ["P"; "PA"])
           then Image_convert image "RGBA" = Some image' else image' = image)
       /\ Image_size image' = Image_size image
       /\ Image_save image' "webp" [("quality", 85%Z)] = Some data
       /\ save_image_ photo "instance/uploads" "product_3" shop
          = Ok ("product_3" +:+ ".webp", true)
               (stored (os_path_join "instance/uploads" ("product_3" +:+ ".webp"))
                       data shop).
Proof.
  assert (Hsize : forall i m i',
    Image_convert i m = Some i' -> Image_size i' = Image_size i).
  { intros i m i' [= <-]. reflexivity. }
  assert (Hext : original_extension secure_filename photo
                 ∈ supported_formats_for_conversion) by apply list_elem_of_here.
  assert (Hok : exists s',
    convert_to_webp_ photo
      (os_path_join "instance/uploads" ("product_3" +:+ ".webp")) shop
    = Ok tt s') by (eexists; reflexivity).
  split; [exact Hsize|]. split; [exact Hext|]. split; [exact Hok|].
  exact (save_image_converts secure_filename Image Image_open Image_mode Image_size
           Image_convert Image_save Image_save_leftover photo "instance/uploads"
           "product_3" shop Hsize Hext Hok).
Defined.

Lemma creation_assigns_next_id_witness :
  is_authenticated shop = true
  /\ returns (save_image_ photo (UPLOAD_FOLDER DATA_DIR) "product_3" shop)
  /\ returns (save_image_ photo (UPLOAD_FOLDER DATA_DIR) "category_3" shop)
  /\ (exists new_product s',
        admin_ (submission "1") shop = Ok (Redirect "admin") s'
        /\ products_of s' = [ring; necklace; new_product]
        /\ is_next_id [1%Z; 2%Z] (Product.id new_product))
  /\ (exists new_category s',
        manage_categories_ (submission "1") shop
        = Ok (Redirect "manage_categories") s'
        /\ categories_of s' = [rings; necklaces; new_category]
        /\ is_next_id [1%Z; 2%Z] (Category.id new_category)).
Proof.
  assert (Hproduct_image :
    returns (save_image_ photo (UPLOAD_FOLDER DATA_DIR) "product_3" shop))
    by (eexists _, _; vm_compute; reflexivity).
  assert (Hcategory_image :
    returns (save_image_ photo (UPLOAD_FOLDER DATA_DIR) "category_3" shop))
    by (eexists _, _; vm_compute; reflexivity).
  split; [reflexivity|]. split; [exact Hproduct_image|].
  split; [exact Hcategory_image|].
  destruct (creation_assigns_next_id DATA_DIR secure_filename url_for_uploaded_file
              py_float py_int Image Image_open Image_mode Image_convert Image_save
              Image_save_leftover shop eq_refl) as [Hproduct Hcategory].
  split.
  - exact (Hproduct (submission "1") photo "Anillo" "Plata" "9.5" nine_and_a_half "1" 1%Z
             shop_products_readable eq_refl eq_refl Hproduct_image
             eq_refl eq_refl eq_refl eq_refl eq_refl eq_refl).
  - exact (Hcategory (submission "1") photo "Anillo"
             shop_categories_readable eq_refl eq_refl Hcategory_image eq_refl).
Defined.

Lemma missing_image_file_is_ignored_witness :
  is_authenticated shop = true
  /\ removable (image_path_ "/uploads/product_1.webp")
  /\ fs shop !! image_path_ "/uploads/product_1.webp" = None
  /\ returns (save_image_ photo (UPLOAD_FOLDER DATA_DIR) "product_1_1700000000" shop)
  /\ (os_remove (image_path_ "/uploads/product_1.webp") shop
      = Raised FileNotFoundError shop
      /\ exists s',
           delete_product_ 1 shop = Ok (Redirect "admin") s'
           /\ products_of s' = [necklace]
           /\ fs s' = fs shop)
  /\ (exists s' new_filename data,
        edit_product_ (submission "1") 1 shop = Ok (Redirect "admin") s'
        /\ products_of s'
           = [Product.set_image (url_for_uploaded_file new_filename)
                (edited_product "Anillo" "Plata" nine_and_a_half 1 ring);
              necklace]
        /\ fs s' !! os_path_join (UPLOAD_FOLDER DATA_DIR) new_filename = Some data).
Proof.
  assert (Hremovable : removable (image_path_ "/uploads/product_1.webp"))
    by reflexivity.
  assert (Hstored :
    returns (save_image_ photo (UPLOAD_FOLDER DATA_DIR) "product_1_1700000000" shop))
    by (eexists _, _; vm_compute; reflexivity).
  split; [reflexivity|]. split; [exact Hremovable|]. split; [reflexivity|].
  split; [exact Hstored|].
  destruct (missing_image_file_is_ignored DATA_DIR secure_filename
              url_for_uploaded_file py_float py_int Image Image_open Image_mode
              Image_convert Image_save Image_save_leftover shop eq_refl)
    as (Hdelete & Hedit & _).
  split.
  - exact (Hdelete 1%Z 0%nat ring "/uploads/product_1.webp"
             shop_products_readable eq_refl eq_refl Hremovable eq_refl).
  - exact (Hedit (submission "1") 1%Z 0%nat ring "/uploads/product_1.webp" photo
             "Anillo" "Plata" "9.5" nine_and_a_half "1" 1%Z
             shop_products_readable eq_refl eq_refl Hremovable eq_refl
             eq_refl eq_refl Hstored
             eq_refl eq_refl eq_refl eq_refl eq_refl eq_refl).
Defined.

Lemma delete_product_removes_exactly_witness :
  is_authenticated shop = true
  /\ Forall removable ["instance/uploads/product_2.jpg"]
  /\ exists s',
       delete_product_ 2 shop = Ok (Redirect "admin") s'
       /\ products_file s' = Decoded [ring]
       /\ flashes s' = [("Producto eliminado exitosamente!", "message")].
Proof.
  assert (Hpaths : Forall removable ["instance/uploads/product_2.jpg"])
    by (repeat constructor).
  split; [reflexivity|]. split; [exact Hpaths|].
  destruct (delete_product_removes_exactly DATA_DIR secure_filename 2 shop eq_refl
              shop_products_readable Hpaths)
    as (s' & Hrun & Hproducts & Hflash & _).
  exists s'. split; [exact Hrun|]. split; [exact Hproducts|exact Hflash].
Defined.

Lemma index_featured_products_witness :
  products_file shop <> Unreadable
  /\ categories_file shop <> Unreadable
  /\ exists featured rest,
       index shop
       = Ok (render_index [ring; necklace] [rings; necklaces] featured) shop
       /\ length featured <= 4
       /\ Forall (fun p => is_Some (Product.views p)) featured
       /\ StronglySorted views_ge featured
       /\ [ring] ≡ₚ featured ++ rest
       /\ Forall (fun q => Forall (fun p => (views_key p <= views_key q)%Z) rest)
                 featured.
Proof.
  split; [exact shop_products_readable|]. split; [exact shop_categories_readable|].
  exact (index_featured_products shop shop_products_readable shop_categories_readable).
Defined.

Lemma shop_references_hold : references_hold (catalog shop).
Proof.
  repeat constructor.
  - exists 1%Z. split; [reflexivity|]. apply list_elem_of_here.
  - exists 2%Z. split; [reflexivity|]. apply list_elem_of_further, list_elem_of_here.
Qed.

Lemma references_preserved_witness :
  references_hold (catalog shop)
  /\ Forall removable (cascade_paths DATA_DIR secure_filename 1 (products_of shop))
  /\ references_hold (catalog (final_state (delete_product_ 1 shop)))
  /\ references_hold (catalog (final_state (delete_category_ 1 shop)))
  /\ references_hold (catalog (final_state (admin_ (submission "1") shop)))
  /\ references_hold (catalog (final_state (edit_product_ (submission "1") 2 shop))).
Proof.
  assert (Hpaths : Forall removable
                     (cascade_paths DATA_DIR secure_filename 1 (products_of shop)))
    by (repeat constructor).
  split; [exact shop_references_hold|]. split; [exact Hpaths|].
  destruct (references_preserved DATA_DIR secure_filename url_for_uploaded_file
              py_float py_int Image Image_open Image_mode Image_convert Image_save
              Image_save_leftover shop shop_references_hold)
    as (Hdp & Hdc & Hadmin & Hedit).
  split; [exact (Hdp 1%Z)|]. split; [exact (Hdc 1%Z Hpaths)|].
  split.
  - exact (Hadmin (submission "1") (list_elem_of_here _ _)).
  - exact (Hedit (submission "1") 2%Z (list_elem_of_here _ _)).
Defined.

(** C8, as stated, fails: the product-creation handler stores the
    [category_id] of the form as it is.  In a catalog whose categories have
    the ids 1 and 2 and whose products reference them, a creation form with
    [category_id] 7 adds a product that references no category. *)
Lemma creation_breaks_references :
  references_hold (catalog shop)
  /\ admin_ (submission "7") shop
     = Ok (Redirect "admin")
          (add_flash ("Producto agregado exitosamente!", "message")
             (set_products_file
                (Decoded [ring; necklace;
                          Product.Build 3 "Anillo" "Plata" nine_and_a_half
                            (Some "/uploads/product_3.webp") (Some 7%Z) (Some 0%Z)])
                (stored "instance/uploads/product_3.webp"
                        [Byte.x00; Byte.x04; Byte.x05] shop)))
  /\ ~ references_hold (catalog (final_state (admin_ (submission "7") shop))).
Proof.
  split; [exact shop_references_hold|]. split; [reflexivity|].
  intros Hinv.
  apply Forall_cons in Hinv as [_ Hinv].
  apply Forall_cons in Hinv as [_ Hinv].
  apply Forall_cons in Hinv as [(k & Hk & Hin) _].
  injection Hk as <-.
  apply elem_of_cons in Hin as [Hin|Hin]; [discriminate|].
  apply elem_of_cons in Hin as [Hin|Hin]; [discriminate|].
  by apply elem_of_nil in Hin.
Qed.

(** The path functions on the names that the handlers build. *)
Example os_path_examples :
  os_path_basename "/uploads/product_3.webp" = "product_3.webp"
  /\ os_path_splitext "ring.tar.GZ" = ("ring.tar", ".GZ")
  /\ os_path_splitext ".hidden" = (".hidden", "")
  /\ os_path_join "instance" "uploads" = "instance/uploads"
  /\ original_extension secure_filename photo = ".png"
  /\ image_path_ "/uploads/" = "instance/uploads/".
Proof. repeat split; reflexivity. Qed.

(** The index page of the small catalog features its one product with a
    views field, and a view of the other product gives it its first view. *)
Example index_and_view_examples :
  index shop = Ok (render_index [ring; necklace] [rings; necklaces] [ring]) shop
  /\ record_view 2 shop
     = Ok (jsonify true None 200)
          (set_products_file (Decoded [ring; Product.set_views 1 necklace]) shop)
  /\ record_view 5 shop = Ok (jsonify false (Some "Product not found") 404) shop.
Proof. repeat split; reflexivity. Qed.

(** A products file that is not UTF-8 text is not reset: the load raises,
    and so does every page that loads the products. *)
Example unreadable_file_examples :
  load_products garbled = Raised UnicodeDecodeError garbled
  /\ index garbled = Raised UnicodeDecodeError garbled
  /\ record_view 1 garbled = Raised UnicodeDecodeError garbled
  /\ delete_product_ 1 garbled = Raised UnicodeDecodeError garbled.
Proof. repeat split; reflexivity. Qed.

(** An image that names the upload folder stops a deletion: that of the
    product before anything is stored, that of its category after the
    categories have been stored without it, which leaves a product that
    references no category. *)
Example directory_image_examples :
  references_hold (catalog tampered)
  /\ delete_product_ 1 tampered = Raised IsADirectoryError tampered
  /\ delete_category_ 1 tampered
     = Raised IsADirectoryError
         (set_fs (delete "instance/uploads/category_1.webp" disk)
            (set_categories_file (Decoded [necklaces]) tampered))
  /\ ~ references_hold (catalog (final_state (delete_category_ 1 tampered))).
Proof.
  split; [|split; [vm_compute; reflexivity|split; [vm_compute; reflexivity|]]].
  - apply Forall_cons. split; [|apply Forall_cons; split; [|done]].
    + exists 1%Z. split; [reflexivity|]. apply list_elem_of_here.
    + exists 2%Z. split; [reflexivity|]. apply list_elem_of_further, list_elem_of_here.
  - intros Hinv. vm_compute in Hinv. apply Forall_cons in Hinv as [(k & Hk & Hin) _].
    injection Hk as <-.
    apply elem_of_cons in Hin as [Hin|Hin]; [discriminate|].
    by apply elem_of_nil in Hin.
Qed.

(** An upload whose stored name would be longer than a file name may be is
    refused by the file system, outside the [try] of [save_image]; and an
    encoding that fails after the WebP file has been opened leaves a WebP
    file that was there cut to what the encoder had written. *)
Example save_image_failure_examples :
  save_image_ long_photo "instance/uploads" "product_3" shop = Raised OSError shop
  /\ admin_ {| method := POST; url := "/admin"; form := ∅;
               files := <["image" := long_photo]> ∅; now := 1700000000 |} shop
     = Raised OSError shop
  /\ save_image_ blank_photo "instance/uploads" "category_1" shop
     = Ok ("category_1.png", false)
          (stored "instance/uploads/category_1.png" [Byte.x00; Byte.x00; Byte.x05]
             (stored "instance/uploads/category_1.webp" [] shop)).
Proof.
  split; [vm_compute; reflexivity|]. split; vm_compute; reflexivity.
Qed.

(** ** The further properties on the small instance *)

Lemma anonymous_requests_are_turned_away_witness :
  is_authenticated visitor = false
  /\ admin_ (submission "1") visitor = turned_away visitor
  /\ delete_product_ 1 visitor = turned_away visitor
  /\ delete_category_ 1 visitor = turned_away visitor.
Proof.
  split; [reflexivity|].
  destruct (anonymous_requests_are_turned_away DATA_DIR secure_filename
              url_for_uploaded_file py_float py_int Image Image_open Image_mode
              Image_convert Image_save Image_save_leftover (submission "1") 1 1
              visitor eq_refl)
    as (Hadmin & _ & Hproduct & _ & _ & Hcategory & _).
  split; [exact Hadmin|]. split; [exact Hproduct|exact Hcategory].
Defined.

Lemma creation_without_image_is_refused_witness :
  is_authenticated shop = true
  /\ method submission_without_image = POST
  /\ uploaded_image submission_without_image = None
  /\ admin_ submission_without_image shop
     = Ok (Redirect "/admin") (add_flash ("La imagen es obligatoria.", "message") shop)
  /\ fs (final_state (admin_ submission_without_image shop)) = fs shop.
Proof.
  split; [reflexivity|]. split; [reflexivity|]. split; [reflexivity|].
  destruct (creation_without_image_is_refused DATA_DIR secure_filename
              url_for_uploaded_file py_float py_int Image Image_open Image_mode
              Image_convert Image_save Image_save_leftover submission_without_image
              shop eq_refl shop_products_readable shop_categories_readable
              eq_refl eq_refl)
    as (Hadmin & _ & _ & _ & Hfs & _).
  split; [exact Hadmin|exact Hfs].
Defined.


Lemma failed_edit_stores_nothing_witness :
  edit_product_ submission_with_bad_price 1 shop = Raised ValueError shop
  /\ catalog shop = catalog shop
  /\ flashes shop = flashes shop
  /\ ((ValueError = UnicodeDecodeError /\ fs shop = fs shop)
      \/ ((ValueError = BadRequestKeyError \/ ValueError = ValueError)
          /\ method submission_with_bad_price = POST /\ fs shop = fs shop)
      \/ ((ValueError = FileNotFoundError \/ ValueError = IsADirectoryError
           \/ ValueError = OSError)
          /\ method submission_with_bad_price = POST
          /\ exists file, uploaded_image submission_with_bad_price = Some file)).
Proof.
  assert (Hraise : edit_product_ submission_with_bad_price 1 shop
                   = Raised ValueError shop) by (vm_compute; reflexivity).
  split; [exact Hraise|].
  exact (failed_edit_stores_nothing DATA_DIR secure_filename url_for_uploaded_file
           py_float py_int Image Image_open Image_mode Image_convert Image_save
           Image_save_leftover submission_with_bad_price 1 shop ValueError shop
           (or_introl Hraise)).
Defined.

Lemma shop_ids_unique : NoDup (product_ids shop) /\ NoDup (category_ids shop).
Proof.
  split; apply (bool_decide_unpack _); vm_compute; exact I.
Qed.

Lemma product_ids_stay_unique_witness :
  NoDup (product_ids shop)
  /\ NoDup (product_ids (final_state (admin_ (submission "1") shop)))
  /\ NoDup (product_ids (final_state (edit_product_ (submission "1") 2 shop)))
  /\ NoDup (product_ids (final_state (delete_product_ 1 shop)))
  /\ NoDup (product_ids (final_state (delete_category_ 1 shop)))
  /\ NoDup (product_ids (final_state (record_view 2 shop))).
Proof.
  split; [exact (proj1 shop_ids_unique)|].
  destruct (product_ids_stay_unique DATA_DIR secure_filename url_for_uploaded_file
              py_float py_int Image Image_open Image_mode Image_convert Image_save
              Image_save_leftover shop (proj1 shop_ids_unique))
    as (Hadmin & Hedit & Hdelete & Hcategory & Hview).
  split; [exact (Hadmin (submission "1"))|].
  split; [exact (Hedit (submission "1") 2%Z)|].
  split; [exact (Hdelete 1%Z)|].
  split; [exact (Hcategory 1%Z)|exact (Hview 2%Z)].
Defined.

Lemma category_ids_stay_unique_witness :
  NoDup (category_ids shop)
  /\ NoDup (category_ids (final_state (manage_categories_ (submission "1") shop)))
  /\ NoDup (category_ids (final_state (edit_category_ (submission "1") 2 shop)))
  /\ NoDup (category_ids (final_state (delete_category_ 1 shop))).
Proof.
  split; [exact (proj2 shop_ids_unique)|].
  destruct (category_ids_stay_unique DATA_DIR secure_filename url_for_uploaded_file
              Image Image_open Image_mode Image_convert Image_save
              Image_save_leftover shop (proj2 shop_ids_unique))
    as (Hcreate & Hedit & Hdelete).
  split; [exact (Hcreate (submission "1"))|].
  split; [exact (Hedit (submission "1") 2%Z)|exact (Hdelete 1%Z)].
Defined.

Lemma references_survive_category_edits_witness :
  references_hold (catalog shop)
  /\ references_hold
       (catalog (final_state (manage_categories_ (submission "1") shop)))
  /\ references_hold
       (catalog (final_state (edit_category_ (submission "1") 1 shop)))
  /\ references_hold (catalog (final_state (record_view 2 shop))).
Proof.
  split; [exact shop_references_hold|].
  destruct (references_survive_category_edits DATA_DIR secure_filename
              url_for_uploaded_file Image Image_open Image_mode Image_convert
              Image_save Image_save_leftover shop shop_references_hold)
    as (Hcreate & Hedit & Hview).
  split; [exact (Hcreate (submission "1"))|].
  split; [exact (Hedit (submission "1") 1%Z)|exact (Hview 2%Z)].
Defined.

Lemma index_ties_keep_order_witness :
  products_file shop <> Unreadable
  /\ categories_file shop <> Unreadable
  /\ exists featured,
       index shop
       = Ok (render_index [ring; necklace] [rings; necklaces] featured) shop
       /\ filter (fun p => views_key p = 3%Z) featured
          `prefix_of` filter (fun p => views_key p = 3%Z)
                        (filter (fun p => is_Some (Product.views p)) [ring; necklace]).
Proof.
  split; [exact shop_products_readable|]. split; [exact shop_categories_readable|].
  exact (index_ties_keep_order shop 3 shop_products_readable shop_categories_readable).
Defined.

Lemma login_checks_credentials_witness :
  is_authenticated visitor = false
  /\ method (sign_in "admin" "secret") = POST
  /\ form (sign_in "admin" "secret") !! "username" = Some "admin"
  /\ form (sign_in "admin" "secret") !! "password" = Some "secret"
  /\ (exists result s',
        login ADMIN_USER (sign_in "admin" "secret") visitor = Ok result s'
        /\ is_authenticated s' = true
        /\ result = Response (Redirect "admin"))
  /\ (exists result s',
        login ADMIN_USER (sign_in "admin" "admin") visitor = Ok result s'
        /\ is_authenticated s' <> true
        /\ result = render_login).
Proof.
  split; [reflexivity|]. split; [reflexivity|]. split; [reflexivity|].
  split; [reflexivity|]. split.
  - destruct (login_checks_credentials ADMIN_USER (sign_in "admin" "secret") visitor
                "admin" "secret" eq_refl eq_refl eq_refl eq_refl)
      as (result & s' & Hrun & Hauth & Hadmin & _).
    exists result, s'. split; [exact Hrun|].
    split; [apply Hauth|apply Hadmin]; split; reflexivity.
  - destruct (login_checks_credentials ADMIN_USER (sign_in "admin" "admin") visitor
                "admin" "admin" eq_refl eq_refl eq_refl eq_refl)
      as (result & s' & Hrun & Hauth & _ & Hlogin & _).
    exists result, s'. split; [exact Hrun|].
    split.
    + intros Htrue. apply Hauth in Htrue as [_ Hpass]. discriminate Hpass.
    + apply Hlogin. intros [_ Hpass]. discriminate Hpass.
Defined.

Lemma logout_ends_the_session_witness :
  is_authenticated shop = true
  /\ exists s',
       logout shop = Ok (Redirect "index") s'
       /\ is_authenticated s' = false
       /\ fs s' = fs shop
       /\ delete_product_ 1 s' = turned_away s'.
Proof.
  split; [reflexivity|].
  destruct (logout_ends_the_session DATA_DIR secure_filename url_for_uploaded_file
              py_float py_int Image Image_open Image_mode Image_convert Image_save
              Image_save_leftover (submission "1") 1 1 shop eq_refl)
    as (s' & Hrun & Hanon & _ & _ & Hfs & _ & _ & Hdelete & _).
  exists s'. split; [exact Hrun|]. split; [exact Hanon|].
  split; [exact Hfs|exact Hdelete].
Defined.

Lemma show_category_lists_its_products_witness :
  products_file shop <> Unreadable
  /\ categories_file shop <> Unreadable
  /\ exists products category,
       show_category 2 shop
       = Ok (render_category_products products category [rings; necklaces]) shop
       /\ products = [necklace]
       /\ match category with
          | Some c =>
              exists i,
                [rings; necklaces] !! i = Some c
                /\ Category.id c = 2%Z
                /\ forall j earlier,
                     [rings; necklaces] !! j = Some earlier -> (j < i)%nat ->
                     Category.id earlier <> 2%Z
          | None => Forall (fun c => Category.id c <> 2%Z) [rings; necklaces]
          end.
Proof.
  split; [exact shop_products_readable|]. split; [exact shop_categories_readable|].
  exact (show_category_lists_its_products 2 shop shop_products_readable
           shop_categories_readable).
Defined.

Lemma repeated_views_add_up_witness :
  list_find (fun p => Product.id p = 2%Z) (products_of shop) = Some (1, necklace)
  /\ viewed 3 2 shop
     = set_products_file (Decoded [ring; Product.set_views 3 necklace]) shop.
Proof.
  split; [reflexivity|].
  exact (repeated_views_add_up 2 shop 1 necklace 2 eq_refl).
Defined.

Lemma edit_of_unknown_id_is_refused_witness :
  is_authenticated shop = true
  /\ Forall (fun p => Product.id p <> 9%Z) (products_of shop)
  /\ Forall (fun c => Category.id c <> 9%Z) (categories_of shop)
  /\ edit_product_ submission_with_bad_price 9 shop
     = Ok (Redirect "admin")
          (add_flash ("Producto no encontrado.", "message") shop)
  /\ edit_category_ submission_with_bad_price 9 shop
     = Ok (Redirect "manage_categories")
          (add_flash ("Categoría no encontrada.", "message") shop).
Proof.
  assert (Hproducts : Forall (fun p => Product.id p <> 9%Z) (products_of shop))
    by (repeat constructor; discriminate).
  assert (Hcategories : Forall (fun c => Category.id c <> 9%Z) (categories_of shop))
    by (repeat constructor; discriminate).
  split; [reflexivity|]. split; [exact Hproducts|]. split; [exact Hcategories|].
  exact (edit_of_unknown_id_is_refused DATA_DIR secure_filename url_for_uploaded_file
           py_float py_int Image Image_open Image_mode Image_convert Image_save
           Image_save_leftover submission_with_bad_price 9 shop eq_refl
           shop_products_readable shop_categories_readable Hproducts Hcategories).
Defined.

Lemma delete_of_unknown_category_keeps_products_witness :
  is_authenticated shop = true
  /\ Forall (fun c => Category.id c <> 9%Z) (categories_of shop)
  /\ exists s',
       delete_category_ 9 shop = Ok (Redirect "manage_categories") s'
       /\ flashes s' = [("Categoría no encontrada.", "warning")]
       /\ catalog s' = catalog shop
       /\ fs s' = fs shop.
Proof.
  assert (Hcategories : Forall (fun c => Category.id c <> 9%Z) (categories_of shop))
    by (repeat constructor; discriminate).
  split; [reflexivity|]. split; [exact Hcategories|].
  exact (delete_of_unknown_category_keeps_products DATA_DIR secure_filename 9 shop
           eq_refl shop_products_readable shop_categories_readable Hcategories).
Defined.

